(** * couchbase.views: the ViewRequest streaming iterator and the ViewQuery
    parameter builder

    A shallow embedding of [couchbase/views.py].  A [ViewRequest] is a Python
    object mutated by its methods; it is modelled as a record threaded through
    a small state-and-exception monad.  The raw row source
    ([self._streaming_result]) is a Python iterator: a finite script of pull
    outcomes followed by [StopIteration].

    The base class [ViewRequestLogic], the exception table and the
    [ViewQuery] builder are declared in modules that are not part of src;
    what views.py needs of them is modelled from the specification, and each
    such definition says so. *)

From Stdlib Require Import ZArith Lia.
From stdpp Require Import gmap strings list pretty.

Set Default Proof Using "Type".
Set Warnings "-register-all,-clear-no-such-hyp".

(** ** Python values that cross the iterator *)

(** Deserialized JSON: what [serializer.deserialize] hands back. *)
Inductive json :=
| JNull
| JBool (b : bool)
| JNum (n : Z)
| JStr (s : string)
| JArr (l : list json)
| JObj (l : list (string * json)).

(** Instances of Python's [Exception], split along the three handlers of
    [ViewRequest.__next__]: [StopIteration], [CouchbaseException] and its
    subclasses (named by class), and every other [Exception].  What is not
    an [Exception] ([KeyboardInterrupt], [SystemExit]) is caught by no
    handler of views.py and is not part of this type. *)
Inductive exn :=
| StopIteration (arg : string)
| CouchbaseExc (cls : string) (msg : string)
| OtherExc (cls : string) (msg : string).

(** Modelled from the spec: [ViewMetaData] is declared in
    couchbase/logic/views.py, which is not in src; the spec gives it a total
    row count and optional server debug information. *)
Record ViewMetaData := {
  total_rows : Z;
  debug_info : option string
}.

(** Modelled from the spec: [ViewRow] is declared in couchbase/logic/views.py,
    which is not in src; the spec gives it an opaque key, an opaque value and a
    document id that is absent for reduced queries. *)
Record ViewRow := {
  row_key : json;
  row_value : json;
  row_id : option string
}.

(** Objects the source hands over that are neither [None] nor an error
    marker: an encoded row, or the response that carries the metadata. *)
Inductive pyobj :=
| Encoded (raw : string)
| Response (m : ViewMetaData).

(** One pulled item.  [ErrorMarker] is an instance of
    [couchbase.exceptions.exception] (imported as [CouchbaseBaseException]):
    a failure encoded in the stream, returned, not raised. *)
Inductive item :=
| ErrorMarker (code : Z) (msg : string)
| PyNone
| Obj (o : pyobj).

(** What one [next(self._streaming_result)] does. *)
Inductive outcome :=
| Yield (i : item)
| Throw (e : exn).

(** [self.row_factory]: a subclass of [ViewRow], some other class, or not a
    class at all (then [issubclass] raises [TypeError]).  For a subclass,
    [ctor] is the whole call [self.row_factory( **deserialized_row )]: the
    unpacking of the deserialized row into keyword arguments, which raises
    [TypeError] when the row is not a mapping, and the construction. *)
Inductive factory :=
| RowClass (ctor : json -> exn + ViewRow)
| OtherClass
| NotAClass.

(** What [__next__] returns: the [None] of the done guard, a row object, or
    the raw deserialized value.  A raw value that is JSON null is
    [RValue JNull]; to a Python caller it is [None] as well. *)
Inductive result :=
| RNone
| RRow (r : ViewRow)
| RValue (v : json).

(** ** The request object *)

(** The attributes of a [ViewRequest].  [_connection] stands for the transport
    collaborator: the raw row source it returns once the query is submitted.
    [submitted] and [pulled] are instrumentation: they count the calls of
    [_submit_query] and of [next(self._streaming_result)]. *)
Record ViewRequest := {
  _connection : list outcome;
  row_factory : factory;
  _started_streaming : bool;
  _done_streaming : bool;
  _streaming_result : list outcome;
  _metadata : option ViewMetaData;
  submitted : nat;
  pulled : nat
}.

Definition set_started_streaming (b : bool) (r : ViewRequest) : ViewRequest :=
  {| _connection := _connection r; row_factory := row_factory r;
     _started_streaming := b; _done_streaming := _done_streaming r;
     _streaming_result := _streaming_result r; _metadata := _metadata r;
     submitted := submitted r; pulled := pulled r |}.

Definition set_done_streaming (b : bool) (r : ViewRequest) : ViewRequest :=
  {| _connection := _connection r; row_factory := row_factory r;
     _started_streaming := _started_streaming r; _done_streaming := b;
     _streaming_result := _streaming_result r; _metadata := _metadata r;
     submitted := submitted r; pulled := pulled r |}.

Definition set_streaming_result (s : list outcome) (r : ViewRequest) : ViewRequest :=
  {| _connection := _connection r; row_factory := row_factory r;
     _started_streaming := _started_streaming r;
     _done_streaming := _done_streaming r;
     _streaming_result := s; _metadata := _metadata r;
     submitted := submitted r; pulled := pulled r |}.

Definition set_metadata_field (m : option ViewMetaData) (r : ViewRequest) : ViewRequest :=
  {| _connection := _connection r; row_factory := row_factory r;
     _started_streaming := _started_streaming r;
     _done_streaming := _done_streaming r;
     _streaming_result := _streaming_result r; _metadata := m;
     submitted := submitted r; pulled := pulled r |}.

Definition count_submit (r : ViewRequest) : ViewRequest :=
  {| _connection := _connection r; row_factory := row_factory r;
     _started_streaming := _started_streaming r;
     _done_streaming := _done_streaming r;
     _streaming_result := _streaming_result r; _metadata := _metadata r;
     submitted := S (submitted r); pulled := pulled r |}.

Definition count_pull (r : ViewRequest) : ViewRequest :=
  {| _connection := _connection r; row_factory := row_factory r;
     _started_streaming := _started_streaming r;
     _done_streaming := _done_streaming r;
     _streaming_result := _streaming_result r; _metadata := _metadata r;
     submitted := submitted r; pulled := S (pulled r) |}.

(** Modelled from the spec: the lifecycle [NotStarted -> Streaming -> Done];
    the base class ViewRequestLogic is not in src, and views.py reads it
    through the two flags [started_streaming] and [done_streaming]. *)
Inductive StreamState := NotStarted | Streaming | Done.

Definition stream_state (r : ViewRequest) : StreamState :=
  if _done_streaming r then Done
  else if _started_streaming r then Streaming
  else NotStarted.

(** ** A state and exception monad for the methods *)

Definition M (A : Type) : Type := ViewRequest -> (exn + A) * ViewRequest.

Definition ret {A} (a : A) : M A := fun st => (inr a, st).

Definition raise {A} (e : exn) : M A := fun st => (inl e, st).

Definition bind {A B} (c : M A) (k : A -> M B) : M B :=
  fun st =>
    match c st with
    | (inr a, st') => k a st'
    | (inl e, st') => (inl e, st')
    end.

(** [try: c except: h]: the handler sees the exception and the state the
    body left behind. *)
Definition try_except {A} (c : M A) (h : exn -> M A) : M A :=
  fun st =>
    match c st with
    | (inr a, st') => (inr a, st')
    | (inl e, st') => h e st'
    end.

Definition get {A} (f : ViewRequest -> A) : M A := fun st => (inr (f st), st).

Definition modify (f : ViewRequest -> ViewRequest) : M unit :=
  fun st => (inr tt, f st).

(** A call that raises or returns, without touching the request. *)
Definition lift {A} (r : exn + A) : M A :=
  match r with
  | inl e => raise e
  | inr a => ret a
  end.

Notation "'let*' x ':=' c 'in' k" := (bind c (fun x => k))
  (at level 10, x name, c at level 100, k at level 200).
Notation "c ';;' k" := (bind c (fun _ => k))
  (at level 100, k at level 200, right associativity).

(** ** The methods of [ViewRequest] *)

Section ViewRequest.

(** [couchbase.exceptions] is not in src: its error table, the code of the
    internal-SDK entry and [str] of an exception are taken as given. *)
Variable PYCBC_ERROR_MAP : gmap Z string.
Variable InternalSDKException_value : Z.
Variable py_str : exn -> string.

(** [self.serializer.deserialize]: the serializer is supplied by the
    caller. *)
Variable deserialize : pyobj -> exn + json.

(** What [_set_metadata] raises when handed something that is not a
    response (the spec is silent on this). *)
Variable metadata_failure : item -> exn.

Definition CouchbaseException : string := "CouchbaseException".

Definition AlreadyQueriedException : exn :=
  CouchbaseExc "AlreadyQueriedException" "".

(** [PYCBC_ERROR_MAP.get(code, CouchbaseException)]. *)
Definition error_class (code : Z) : string :=
  default CouchbaseException (PYCBC_ERROR_MAP !! code).

(** Modelled from the spec: [ErrorMapper.build_exception] is declared in
    couchbase/exceptions.py, which is not in src; it builds the domain
    exception mapped from the marker's error code. *)
Definition build_exception (code : Z) (msg : string) : exn :=
  CouchbaseExc (error_class code) msg.

(** [exc_cls(str(ex))] with
    [exc_cls = PYCBC_ERROR_MAP.get(ExceptionMap.InternalSDKException.value,
    CouchbaseException)]. *)
Definition internal_sdk_exception (ex : exn) : exn :=
  CouchbaseExc (error_class InternalSDKException_value) (py_str ex).

(** [next(self._streaming_result)]: an exhausted iterator raises
    [StopIteration]. *)
Definition next_streaming_result : M item :=
  fun st =>
    match _streaming_result st with
    | [] => (inl (StopIteration ""), count_pull st)
    | Yield i :: rest => (inr i, set_streaming_result rest (count_pull st))
    | Throw e :: rest => (inl e, set_streaming_result rest (count_pull st))
    end.

(** Modelled from the spec: [ViewRequestLogic._set_metadata] is not in src;
    it stores the metadata that the response carries. *)
Definition _set_metadata (views_response : item) : M unit :=
  match views_response with
  | Obj (Response m) => modify (set_metadata_field (Some m))
  | other => raise (metadata_failure other)
  end.

(** Modelled from the spec: [ViewRequestLogic._submit_query] is not in src;
    it hands the query to the transport, keeps the raw row source and moves
    the request to [Streaming]. *)
Definition _submit_query : M unit :=
  modify (fun st =>
    count_submit
      (set_streaming_result (_connection st)
         (set_started_streaming true st))).

(** Modelled from the spec: [ViewRequestLogic.metadata] is not in src; it
    returns the stored metadata, which is empty until it is set. *)
Definition metadata (st : ViewRequest) : option ViewMetaData := _metadata st.

Definition _get_metadata : M unit :=
  try_except
    (let* views_response := next_streaming_result in
     _set_metadata views_response)
    (fun ex =>
       match ex with
       | CouchbaseExc _ _ => raise ex
       | _ => raise (internal_sdk_exception ex)
       end).

Definition __iter__ : M unit :=
  let* done := get _done_streaming in
  if done then raise AlreadyQueriedException
  else
    let* started := get _started_streaming in
    (if negb started then _submit_query else ret tt);;
    ret tt.

Definition _get_next_row : M result :=
  let* done := get _done_streaming in
  if done then ret RNone
  else
    let* row := next_streaming_result in
    match row with
    | ErrorMarker code msg => raise (build_exception code msg)
    | PyNone => raise (StopIteration "")
    | Obj o =>
        let* deserialized_row := lift (deserialize o) in
        let* cls := get row_factory in
        match cls with
        | RowClass ctor =>
            let* r := lift (ctor deserialized_row) in ret (RRow r)
        | OtherClass => ret (RValue deserialized_row)
        | NotAClass =>
            raise (OtherExc "TypeError" "issubclass() arg 1 must be a class")
        end
    end.

Definition __next__ : M result :=
  try_except _get_next_row
    (fun ex =>
       match ex with
       | StopIteration _ =>
           modify (set_done_streaming true);;
           _get_metadata;;
           raise ex
       | CouchbaseExc _ _ => raise ex
       | OtherExc _ _ => raise (internal_sdk_exception ex)
       end).

(** [list(self)]: [iter(self)], then [next] until [StopIteration]; any
    other exception propagates.  [None] means the fuel ran out before the
    loop ended. *)
Fixpoint collect (fuel : nat) (st : ViewRequest)
  : option ((exn + list result) * ViewRequest) :=
  match fuel with
  | O => None
  | S fuel' =>
      match __next__ st with
      | (inr r, st') =>
          match collect fuel' st' with
          | Some (inr rs, st'') => Some (inr (r :: rs), st'')
          | other => other
          end
      | (inl (StopIteration _), st') => Some (inr [], st')
      | (inl e, st') => Some (inl e, st')
      end
  end.

Definition py_list (fuel : nat) (st : ViewRequest)
  : option ((exn + list result) * ViewRequest) :=
  match __iter__ st with
  | (inr _, st') => collect fuel st'
  | (inl e, st') => Some (inl e, st')
  end.

(** [execute]: [[r for r in list(self)]], a copy of the drained list. *)
Definition execute (fuel : nat) (st : ViewRequest)
  : option ((exn + list result) * ViewRequest) :=
  match py_list fuel st with
  | Some (inr rs, st') => Some (inr (map (fun r => r) rs), st')
  | other => other
  end.

(** [n] successive [__next__] calls, stopping at the first exception. *)
Fixpoint next_n (n : nat) : M (list result) :=
  match n with
  | O => ret []
  | S n' =>
      let* r := __next__ in
      let* rs := next_n n' in
      ret (r :: rs)
  end.

(** A caller's calls on one request; an exception raised by a call is
    caught by the caller, who goes on with the same object. *)
Inductive call := CallIter | CallNext.

Definition run_call (c : call) (st : ViewRequest) : ViewRequest :=
  match c with
  | CallIter => snd (__iter__ st)
  | CallNext => snd (__next__ st)
  end.

Definition run_calls (cs : list call) (st : ViewRequest) : ViewRequest :=
  foldl (fun s c => run_call c s) st cs.

End ViewRequest.

(** Modelled from the spec: [ViewRequestLogic.__init__] is not in src; a new
    request is [NotStarted] and has no metadata.
    [generate_view_request] is [cls(connection, encoded_query, **kwargs)]. *)
Definition generate_view_request (connection : list outcome)
    (row_factory : factory) : ViewRequest :=
  {| _connection := connection; row_factory := row_factory;
     _started_streaming := false; _done_streaming := false;
     _streaming_result := []; _metadata := None;
     submitted := 0; pulled := 0 |}.

(** What one encoded row becomes under the configured serializer and row
    factory: the value [_get_next_row] returns for it, or what it raises. *)
Definition produce (deserialize : pyobj -> exn + json) (cls : factory)
    (o : pyobj) : exn + result :=
  match deserialize o with
  | inl e => inl e
  | inr d =>
      match cls with
      | RowClass ctor =>
          match ctor d with
          | inl e => inl e
          | inr r => inr (RRow r)
          end
      | OtherClass => inr (RValue d)
      | NotAClass =>
          inl (OtherExc "TypeError" "issubclass() arg 1 must be a class")
      end
  end.

(** ** The ViewQuery parameter builder

    [ViewQuery] and [ViewOptions] live in couchbase/logic/views.py and
    couchbase/options.py, which are not in src; views_t.py exercises them.
    The builder below follows the spec (sections 3, 4.1 and 6). *)

Inductive DesignDocumentNamespace := PRODUCTION | DEVELOPMENT.
Inductive ViewOrdering := ASCENDING | DESCENDING.
Inductive ViewErrorMode := STOP | CONTINUE.
Inductive ViewScanConsistency := NOT_BOUNDED | REQUEST_PLUS | UPDATE_AFTER.

(** Python's [datetime.timedelta]: whole days, seconds and microseconds. *)
Record timedelta := {
  days : Z;
  seconds : Z;
  microseconds : Z
}.

(** A value given for [timeout]: a [timedelta], an [int], a [float] (the
    finite binary float [m * 2^e]), or some other object. *)
Inductive timeout_value :=
| Duration (d : timedelta)
| IntSeconds (s : Z)
| FloatSeconds (m e : Z)
| NotADuration.

(** A value of the encoded parameter mapping. *)
Inductive encval :=
| ENone
| EBool (b : bool)
| EInt (n : Z)
| EStr (s : string)
| EStrList (l : list string)
| ESerializer (name : string).

(** The keyword arguments of [ViewOptions]: each option is given or absent. *)
Record ViewOptions := {
  client_context_id : option string;
  debug : option bool;
  endkey : option json;
  endkey_docid : option string;
  group : option bool;
  group_level : option Z;
  inclusive_end : option bool;
  key : option json;
  keys : option (list json);
  limit : option Z;
  namespace : option DesignDocumentNamespace;
  on_error : option ViewErrorMode;
  order : option ViewOrdering;
  reduce : option bool;
  scan_consistency : option ViewScanConsistency;
  serializer : option string;
  skip : option Z;
  startkey : option json;
  startkey_docid : option string;
  timeout : option timeout_value
}.

Definition ViewOptions_empty : ViewOptions :=
  {| client_context_id := None; debug := None; endkey := None;
     endkey_docid := None; group := None; group_level := None;
     inclusive_end := None; key := None; keys := None; limit := None;
     namespace := None; on_error := None; order := None; reduce := None;
     scan_consistency := None; serializer := None; skip := None;
     startkey := None; startkey_docid := None; timeout := None |}.

(** The names of the options, for talking about "the options that are set". *)
Inductive option_name :=
| Oclient_context_id | Odebug | Oendkey | Oendkey_docid | Ogroup
| Ogroup_level | Oinclusive_end | Okey | Okeys | Olimit | Onamespace
| Oon_error | Oorder | Oreduce | Oscan_consistency | Oserializer | Oskip
| Ostartkey | Ostartkey_docid | Otimeout.

Definition given {A} (o : option A) : bool :=
  match o with Some _ => true | None => false end.

Definition is_set (o : ViewOptions) (n : option_name) : bool :=
  match n with
  | Oclient_context_id => given (client_context_id o)
  | Odebug => given (debug o)
  | Oendkey => given (endkey o)
  | Oendkey_docid => given (endkey_docid o)
  | Ogroup => given (group o)
  | Ogroup_level => given (group_level o)
  | Oinclusive_end => given (inclusive_end o)
  | Okey => given (key o)
  | Okeys => given (keys o)
  | Olimit => given (limit o)
  | Onamespace => given (namespace o)
  | Oon_error => given (on_error o)
  | Oorder => given (order o)
  | Oreduce => given (reduce o)
  | Oscan_consistency => given (scan_consistency o)
  | Oserializer => given (serializer o)
  | Oskip => given (skip o)
  | Ostartkey => given (startkey o)
  | Ostartkey_docid => given (startkey_docid o)
  | Otimeout => given (timeout o)
  end.

(** Spec section 6: the canonical field name of each option. *)
Definition canonical_name (n : option_name) : string :=
  match n with
  | Oclient_context_id => "client_context_id"
  | Odebug => "debug"
  | Oendkey => "end_key"
  | Oendkey_docid => "end_key_doc_id"
  | Ogroup => "group"
  | Ogroup_level => "group_level"
  | Oinclusive_end => "inclusive_end"
  | Okey => "key"
  | Okeys => "keys"
  | Olimit => "limit"
  | Onamespace => "namespace"
  | Oon_error => "on_error"
  | Oorder => "order"
  | Oreduce => "reduce"
  | Oscan_consistency => "scan_consistency"
  | Oserializer => "serializer"
  | Oskip => "skip"
  | Ostartkey => "start_key"
  | Ostartkey_docid => "start_key_doc_id"
  | Otimeout => "timeout"
  end.

Definition identity_fields : gset string :=
  {[ "bucket_name"; "document_name"; "view_name" ]}.

Definition InvalidArgumentException (msg : string) : exn :=
  CouchbaseExc "InvalidArgumentException" msg.

(** [timedelta.total_seconds() * 1e6], exactly: a [timedelta] is a whole
    number of microseconds. *)
Definition total_microseconds (d : timedelta) : Z :=
  ((days d * 86400 + seconds d) * 1000000 + microseconds d)%Z.

(** The whole microseconds in [m * 2^e] seconds, fraction dropped. *)
Definition float_microseconds (m e : Z) : Z :=
  if (0 <=? e)%Z then (m * 2 ^ e * 1000000)%Z
  else (m * 1000000 ÷ 2 ^ (- e))%Z.

(** Modelled from the spec: the timeout conversion is not in src; a duration,
    an integer number of seconds or a float number of seconds becomes an
    integer number of microseconds, and a negative value or any other form
    fails with InvalidArgument. *)
Definition to_microseconds (t : timeout_value) : exn + Z :=
  match t with
  | Duration d =>
      if (total_microseconds d <? 0)%Z
      then inl (InvalidArgumentException "negative timeout")
      else inr (total_microseconds d)
  | IntSeconds s =>
      if (s <? 0)%Z then inl (InvalidArgumentException "negative timeout")
      else inr (s * 1000000)%Z
  | FloatSeconds m e =>
      if (m <? 0)%Z then inl (InvalidArgumentException "negative timeout")
      else inr (float_microseconds m e)
  | NotADuration => inl (InvalidArgumentException "not a duration")
  end.

(** Modelled from the spec: [group_level], [limit] and [skip] are
    non-negative integers; anything else fails with InvalidArgument. *)
Definition non_negative (n : Z) : exn + encval :=
  if (n <? 0)%Z then inl (InvalidArgumentException "negative value")
  else inr (EInt n).

Definition encode_timeout (t : timeout_value) : exn + encval :=
  match to_microseconds t with
  | inl e => inl e
  | inr us => inr (EInt us)
  end.

(** [set_option] for one option after the other: an absent option writes
    nothing, an invalid one stops the build. *)
Fixpoint apply_settings (l : list (string * option (exn + encval)))
    (p : gmap string encval) : exn + gmap string encval :=
  match l with
  | [] => inr p
  | (_, None) :: l' => apply_settings l' p
  | (_, Some (inl e)) :: _ => inl e
  | (name, Some (inr v)) :: l' => apply_settings l' (<[name := v]> p)
  end.

Record ViewQuery := {
  _params : gmap string encval
}.

Section ViewQuery.

(** [json.dumps] is Python's, and the enumerations' [.value]s are declared
    outside src: both are taken as given. *)
Variable json_dumps : json -> string.
Variable namespace_value : DesignDocumentNamespace -> string.
Variable on_error_value : ViewErrorMode -> string.
Variable order_value : ViewOrdering -> string.
Variable scan_consistency_value : ViewScanConsistency -> string.

Definition always {A} (f : A -> encval) (o : option A)
    : option (exn + encval) :=
  match o with
  | Some a => Some (inr (f a))
  | None => None
  end.

Definition checked {A} (f : A -> exn + encval) (o : option A)
    : option (exn + encval) :=
  match o with
  | Some a => Some (f a)
  | None => None
  end.

(** Modelled from the spec: how each option is encoded under its canonical
    field name (section 4.1). *)
Definition settings (o : ViewOptions)
    : list (string * option (exn + encval)) :=
  [ ("client_context_id", always EStr (client_context_id o));
    ("debug", always EBool (debug o));
    ("end_key", always (fun v => EStr (json_dumps v)) (endkey o));
    ("end_key_doc_id", always EStr (endkey_docid o));
    ("group", always EBool (group o));
    ("group_level", checked non_negative (group_level o));
    ("inclusive_end", always EBool (inclusive_end o));
    ("key", always (fun v => EStr (json_dumps v)) (key o));
    ("keys", always (fun vs => EStrList (map json_dumps vs)) (keys o));
    ("limit", checked non_negative (limit o));
    ("namespace", always (fun v => EStr (namespace_value v)) (namespace o));
    ("on_error", always (fun v => EStr (on_error_value v)) (on_error o));
    ("order", always (fun v => EStr (order_value v)) (order o));
    ("reduce", always EBool (reduce o));
    ("scan_consistency",
       always (fun v => EStr (scan_consistency_value v)) (scan_consistency o));
    ("serializer", always ESerializer (serializer o));
    ("skip", checked non_negative (skip o));
    ("start_key", always (fun v => EStr (json_dumps v)) (startkey o));
    ("start_key_doc_id", always EStr (startkey_docid o));
    ("timeout", checked encode_timeout (timeout o)) ].

(** Modelled from the spec: [ViewQuery.create_view_query_object] is not in
    src; it records the three identity fields and then every option that was
    given. *)
Definition create_view_query_object (bucket_name document_name view_name : string)
    (opts : ViewOptions) : exn + ViewQuery :=
  match
    apply_settings (settings opts)
      (<["bucket_name" := EStr bucket_name]>
         (<["document_name" := EStr document_name]>
            (<["view_name" := EStr view_name]> ∅)))
  with
  | inl e => inl e
  | inr p => inr {| _params := p |}
  end.

(** Modelled from the spec: [ViewQuery.as_encodable] is not in src; it is the
    flat mapping the builder filled. *)
Definition as_encodable (q : ViewQuery) : gmap string encval := _params q.

End ViewQuery.

(** The option values the builder accepts: the numeric options are not
    negative, and the timeout is a non-negative duration, integer or float. *)
Definition valid_timeout (t : timeout_value) : Prop :=
  match t with
  | Duration d => (0 <= total_microseconds d)%Z
  | IntSeconds s => (0 <= s)%Z
  | FloatSeconds m _ => (0 <= m)%Z
  | NotADuration => False
  end.

Definition valid_number (o : option Z) : Prop :=
  match o with
  | Some n => (0 <= n)%Z
  | None => True
  end.

Definition valid_options (o : ViewOptions) : Prop :=
  valid_number (group_level o) /\ valid_number (limit o) /\
  valid_number (skip o) /\
  match timeout o with Some t => valid_timeout t | None => True end.

(** The request after a natural completion: [n] more pulls than [st], the
    source at [tail], the flag set and the metadata stored. *)
Definition completed (n : nat) (tail : list outcome) (m : ViewMetaData)
    (st : ViewRequest) : ViewRequest :=
  {| _connection := _connection st; row_factory := row_factory st;
     _started_streaming := _started_streaming st; _done_streaming := true;
     _streaming_result := tail; _metadata := Some m;
     submitted := submitted st; pulled := n + pulled st |}.

(** The request after [n] pulls that left the source at [tail]. *)
Definition advanced (n : nat) (tail : list outcome) (st : ViewRequest)
    : ViewRequest :=
  {| _connection := _connection st; row_factory := row_factory st;
     _started_streaming := _started_streaming st;
     _done_streaming := _done_streaming st;
     _streaming_result := tail; _metadata := _metadata st;
     submitted := submitted st; pulled := n + pulled st |}.

(** The request after the query was submitted. *)
Definition opened (st : ViewRequest) : ViewRequest :=
  {| _connection := _connection st; row_factory := row_factory st;
     _started_streaming := true; _done_streaming := _done_streaming st;
     _streaming_result := _connection st; _metadata := _metadata st;
     submitted := S (submitted st); pulled := pulled st |}.

(** Computations that neither submit nor touch the started flag. *)
Definition keeps {A} (c : M A) : Prop :=
  forall st, submitted (snd (c st)) = submitted st /\
             _started_streaming (snd (c st)) = _started_streaming st.

(** A request submits at most once, and not at all before it is started. *)
Definition submitted_once (st : ViewRequest) : Prop :=
  submitted st <= 1 /\ (_started_streaming st = false -> submitted st = 0).

(** The field names a list of settings writes: those of the options that
    are given. *)
Fixpoint given_names (l : list (string * option (exn + encval)))
    : gset string :=
  match l with
  | [] => ∅
  | (name, o) :: l' => (if given o then {[ name ]} else ∅) ∪ given_names l'
  end.

(** The lifecycle in order: [NotStarted], then [Streaming], then [Done]. *)
Definition state_rank (s : StreamState) : nat :=
  match s with
  | NotStarted => 0
  | Streaming => 1
  | Done => 2
  end.

(** ** A small configuration to run the model on *)

Module Sample.

Definition error_map : gmap Z string :=
  {[ 502%Z := "DesignDocumentNotFoundException";
     5000%Z := "InternalSDKException" ]}.

Definition internal_code : Z := 5000.

Definition str (e : exn) : string :=
  match e with
  | StopIteration a => a
  | CouchbaseExc _ m => m
  | OtherExc _ m => m
  end.

(** The mapping a row decodes to: its key, and a null value. *)
Definition raw_row (k : string) : json :=
  JObj [("key", JStr k); ("value", JNull)].

(** A serializer that accepts every encoded row but the empty one. *)
Definition deserialize (o : pyobj) : exn + json :=
  match o with
  | Encoded "" => inl (OtherExc "ValueError" "no JSON")
  | Encoded raw => inr (raw_row raw)
  | Response _ => inl (OtherExc "TypeError" "not a row")
  end.

Definition metadata_failure (i : item) : exn :=
  OtherExc "AttributeError" "raw_result".

(** The keyword arguments of a row, one after the other; a name that is
    not a field of the row is refused. *)
Fixpoint keywords (kw : list (string * json)) (r : ViewRow)
    : exn + ViewRow :=
  match kw with
  | [] => inr r
  | (name, v) :: kw' =>
      if String.eqb name "key" then
        keywords kw' {| row_key := v; row_value := row_value r;
                        row_id := row_id r |}
      else if String.eqb name "value" then
        keywords kw' {| row_key := row_key r; row_value := v;
                        row_id := row_id r |}
      else if String.eqb name "id" then
        keywords kw' {| row_key := row_key r; row_value := row_value r;
                        row_id := match v with
                                  | JStr i => Some i
                                  | _ => None
                                  end |}
      else inl (OtherExc "TypeError" "unexpected keyword argument")
  end.

(** A row class called as [cls( **deserialized_row )]: what is unpacked
    must be a mapping. *)
Definition row (d : json) : exn + ViewRow :=
  match d with
  | JObj kw =>
      keywords kw {| row_key := JNull; row_value := JNull; row_id := None |}
  | _ => inl (OtherExc "TypeError" "argument after ** must be a mapping")
  end.

Definition quoted (s : string) : string :=
  String (Ascii.ascii_of_nat 34) (s +:+ String (Ascii.ascii_of_nat 34) "").

(** [json.dumps] with its default separators, for values whose strings need
    no escaping. *)
Fixpoint json_dumps (v : json) : string :=
  match v with
  | JNull => "null"
  | JBool true => "true"
  | JBool false => "false"
  | JNum n => pretty n
  | JStr s => quoted s
  | JArr l =>
      "[" +:+
      (fix items (l : list json) : string :=
         match l with
         | [] => ""
         | [x] => json_dumps x
         | x :: l' => json_dumps x +:+ ", " +:+ items l'
         end) l +:+ "]"
  | JObj l =>
      "{" +:+
      (fix members (l : list (string * json)) : string :=
         match l with
         | [] => ""
         | [(k, x)] => quoted k +:+ ": " +:+ json_dumps x
         | (k, x) :: l' =>
             quoted k +:+ ": " +:+ json_dumps x +:+ ", " +:+ members l'
         end) l +:+ "}"
  end.

Definition namespace_value (n : DesignDocumentNamespace) : string :=
  match n with PRODUCTION => "production" | DEVELOPMENT => "development" end.

Definition on_error_value (m : ViewErrorMode) : string :=
  match m with STOP => "stop" | CONTINUE => "continue" end.

Definition order_value (o : ViewOrdering) : string :=
  match o with ASCENDING => "ascending" | DESCENDING => "descending" end.

Definition scan_consistency_value (c : ViewScanConsistency) : string :=
  match c with
  | NOT_BOUNDED => "not_bounded"
  | REQUEST_PLUS => "request_plus"
  | UPDATE_AFTER => "update_after"
  end.

Definition metadata_of (n : Z) : ViewMetaData :=
  {| total_rows := n; debug_info := None |}.

(** One row, the end sentinel, and a trailer that reports no rows. *)
Definition short_count : ViewRequest :=
  generate_view_request
    [ Yield (Obj (Encoded "r0")); Yield PyNone;
      Yield (Obj (Response (metadata_of 0))) ]
    OtherClass.

(** Two rows, the end sentinel, the trailer. *)
Definition two_rows : ViewRequest :=
  generate_view_request
    [ Yield (Obj (Encoded "r0")); Yield (Obj (Encoded "r1")); Yield PyNone;
      Yield (Obj (Response (metadata_of 7))) ]
    (RowClass row).

(** The design document does not exist: the first item is the marker. *)
Definition missing_ddoc : ViewRequest :=
  generate_view_request [ Yield (ErrorMarker 502 "fake-ddoc") ] OtherClass.

(** A request in [Streaming] whose source holds [s]. *)
Definition streaming (s : list outcome) : ViewRequest :=
  {| _connection := s; row_factory := OtherClass;
     _started_streaming := true; _done_streaming := false;
     _streaming_result := s; _metadata := None;
     submitted := 1; pulled := 0 |}.

(** A request in [Streaming] whose next item is an error marker. *)
Definition failing : ViewRequest :=
  streaming [ Yield (ErrorMarker 502 "fake-ddoc") ].

(** A request in [Streaming] whose source breaks. *)
Definition broken : ViewRequest :=
  streaming [ Throw (OtherExc "RuntimeError" "connection reset") ].

(** A request in [Streaming] whose next row the serializer refuses. *)
Definition garbled : ViewRequest :=
  streaming [ Yield (Obj (Encoded "")) ].

(** A request that is [Done]. *)
Definition finished : ViewRequest :=
  completed 3 [] (metadata_of 7) (streaming []).

(** Two rows and the end sentinel, but no metadata response after it. *)
Definition no_trailer : ViewRequest :=
  generate_view_request
    [ Yield (Obj (Encoded "r0")); Yield (Obj (Encoded "r1")); Yield PyNone ]
    OtherClass.

(** A source that ends at once, without the end sentinel. *)
Definition silent : ViewRequest := generate_view_request [] OtherClass.

(** A request in [Streaming] whose source raises a Couchbase exception. *)
Definition timed_out : ViewRequest :=
  streaming [ Throw (CouchbaseExc "UnAmbiguousTimeoutException" "timeout") ].

(** [two_rows] after [__iter__] and one [__next__]. *)
Definition one_row_left : ViewRequest :=
  advanced 1
    [ Yield (Obj (Encoded "r1")); Yield PyNone;
      Yield (Obj (Response (metadata_of 7))) ]
    (opened two_rows).

(** The options of the tests in views_t.py. *)
Definition only_limit : ViewOptions :=
  {| client_context_id := None; debug := None; endkey := None;
     endkey_docid := None; group := None; group_level := None;
     inclusive_end := None; key := None; keys := None; limit := Some 10%Z;
     namespace := None; on_error := None; order := None; reduce := None;
     scan_consistency := None; serializer := None; skip := None;
     startkey := None; startkey_docid := None; timeout := None |}.

Definition only_startkey : ViewOptions :=
  {| client_context_id := None; debug := None; endkey := None;
     endkey_docid := None; group := None; group_level := None;
     inclusive_end := None; key := None; keys := None; limit := None;
     namespace := None; on_error := None; order := None; reduce := None;
     scan_consistency := None; serializer := None; skip := None;
     startkey := Some (JArr [JStr "101 Coffee Shop"; JStr "landmark_11769"]);
     startkey_docid := None; timeout := None |}.

Definition only_keys : ViewOptions :=
  {| client_context_id := None; debug := None; endkey := None;
     endkey_docid := None; group := None; group_level := None;
     inclusive_end := None; key := None;
     keys := Some [JStr "test-key1"; JStr "test-key2"]; limit := None;
     namespace := None; on_error := None; order := None; reduce := None;
     scan_consistency := None; serializer := None; skip := None;
     startkey := None; startkey_docid := None; timeout := None |}.

Definition only_timeout (t : timeout_value) : ViewOptions :=
  {| client_context_id := None; debug := None; endkey := None;
     endkey_docid := None; group := None; group_level := None;
     inclusive_end := None; key := None; keys := None; limit := None;
     namespace := None; on_error := None; order := None; reduce := None;
     scan_consistency := None; serializer := None; skip := None;
     startkey := None; startkey_docid := None; timeout := Some t |}.

Definition view_query (opts : ViewOptions) : exn + ViewQuery :=
  create_view_query_object json_dumps namespace_value on_error_value
    order_value scan_consistency_value "default" "test-ddoc" "test-view" opts.

Definition base_opts : gmap string encval :=
  {[ "bucket_name" := EStr "default"; "document_name" := EStr "test-ddoc";
     "view_name" := EStr "test-view" ]}.

End Sample.

(** ** Properties of the streaming iterator *)

Section ViewRequestProperties.

Variable PYCBC_ERROR_MAP : gmap Z string.
Variable InternalSDKException_value : Z.
Variable py_str : exn -> string.
Variable deserialize : pyobj -> exn + json.
Variable metadata_failure : item -> exn.

Local Abbreviation next :=
  (__next__ PYCBC_ERROR_MAP InternalSDKException_value py_str deserialize
     metadata_failure).
Local Abbreviation nexts :=
  (next_n PYCBC_ERROR_MAP InternalSDKException_value py_str deserialize
     metadata_failure).
Local Abbreviation gather :=
  (collect PYCBC_ERROR_MAP InternalSDKException_value py_str deserialize
     metadata_failure).
Local Abbreviation drain :=
  (execute PYCBC_ERROR_MAP InternalSDKException_value py_str deserialize
     metadata_failure).
Local Abbreviation calls :=
  (run_calls PYCBC_ERROR_MAP InternalSDKException_value py_str deserialize
     metadata_failure).
Local Abbreviation wrap :=
  (internal_sdk_exception PYCBC_ERROR_MAP InternalSDKException_value py_str).
Local Abbreviation mapped := (build_exception PYCBC_ERROR_MAP).

Ltac run :=
  unfold __next__, __iter__, _get_next_row, _get_metadata, _set_metadata,
    _submit_query, next_streaming_result, try_except, bind, get, modify,
    lift, raise, ret.

(** A request that is done answers [None] and is left as it was. *)
Lemma next_when_done st :
  _done_streaming st = true -> next st = (inr RNone, st).
Proof. intros Hd. run. rewrite Hd. reflexivity. Qed.

(** A data row is pulled, converted and returned. *)
Lemma next_data_row st o rest r :
  _done_streaming st = false ->
  _streaming_result st = Yield (Obj o) :: rest ->
  produce deserialize (row_factory st) o = inr r ->
  next st = (inr r, advanced 1 rest st).
Proof.
  intros Hd Hs Hp. run. rewrite Hd, Hs. cbn.
  unfold produce in Hp.
  destruct (deserialize o) as [e|d]; [discriminate|]. cbn.
  destruct (row_factory st) as [ctor| |]; cbn.
  - destruct (ctor d); [discriminate|]. by inversion Hp.
  - by inversion Hp.
  - discriminate.
Qed.

(** A row that cannot be converted: the exception class decides. *)
Lemma next_bad_row st o rest cls msg :
  _done_streaming st = false ->
  _streaming_result st = Yield (Obj o) :: rest ->
  produce deserialize (row_factory st) o = inl (OtherExc cls msg) ->
  next st = (inl (wrap (OtherExc cls msg)), advanced 1 rest st).
Proof.
  intros Hd Hs Hp. run. rewrite Hd, Hs. cbn.
  unfold produce in Hp.
  destruct (deserialize o) as [e|d]; cbn.
  - by inversion Hp.
  - destruct (row_factory st) as [ctor| |]; cbn.
    + destruct (ctor d); [|discriminate]. by inversion Hp.
    + discriminate.
    + by inversion Hp.
Qed.

(** The end sentinel followed by the metadata response. *)
Lemma next_sentinel st m rest :
  _done_streaming st = false ->
  _streaming_result st = Yield PyNone :: Yield (Obj (Response m)) :: rest ->
  next st = (inl (StopIteration ""), completed 2 rest m st).
Proof. intros Hd Hs. run. rewrite Hd, Hs. reflexivity. Qed.


(** An in-stream error marker: the mapped exception leaves as it is. *)
Lemma next_marker st code msg rest :
  _done_streaming st = false ->
  _streaming_result st = Yield (ErrorMarker code msg) :: rest ->
  next st = (inl (mapped code msg), advanced 1 rest st).
Proof. intros Hd Hs. run. rewrite Hd, Hs. reflexivity. Qed.

(** An exception of the source that is neither a Couchbase exception nor
    [StopIteration] is wrapped. *)
Lemma next_source_raises st cls msg rest :
  _done_streaming st = false ->
  _streaming_result st = Throw (OtherExc cls msg) :: rest ->
  next st = (inl (wrap (OtherExc cls msg)), advanced 1 rest st).
Proof. intros Hd Hs. run. rewrite Hd, Hs. reflexivity. Qed.

Lemma iter_not_started st :
  _done_streaming st = false -> _started_streaming st = false ->
  __iter__ st = (inr tt, opened st).
Proof. intros Hd Hs. run. rewrite Hd, Hs. reflexivity. Qed.

Lemma iter_streaming st :
  _done_streaming st = false -> _started_streaming st = true ->
  __iter__ st = (inr tt, st).
Proof. intros Hd Hs. run. rewrite Hd, Hs. reflexivity. Qed.

Lemma iter_done st :
  _done_streaming st = true -> __iter__ st = (inl AlreadyQueriedException, st).
Proof. intros Hd. run. rewrite Hd. reflexivity. Qed.

Lemma advanced_twice n k t t' st :
  advanced n t (advanced k t' st) = advanced (n + k) t st.
Proof. unfold advanced. cbn. f_equal. lia. Qed.

Lemma advanced_nothing st : advanced 0 (_streaming_result st) st = st.
Proof. by destruct st. Qed.

Lemma completed_advanced n k t t' m st :
  completed n t m (advanced k t' st) = completed (k + n) t m st.
Proof. unfold completed, advanced. cbn. f_equal. lia. Qed.

(** [n] data rows at the head of the source come out of [n] calls, in
    order. *)
Lemma next_n_rows objs : forall rows st tail,
  _done_streaming st = false ->
  _streaming_result st = map (fun o => Yield (Obj o)) objs ++ tail ->
  Forall2 (fun o r => produce deserialize (row_factory st) o = inr r)
    objs rows ->
  nexts (length objs) st = (inr rows, advanced (length objs) tail st).
Proof.
  induction objs as [|o objs IH]; intros rows st tail Hd Hs Hall.
  - apply Forall2_nil_inv_l in Hall as ->. cbn in *.
    rewrite <- Hs. by rewrite advanced_nothing.
  - apply Forall2_cons_inv_l in Hall as (r & rows' & Hr & Hrows & ->).
    cbn [length next_n]. unfold bind at 1.
    rewrite (next_data_row st o (map (fun o => Yield (Obj o)) objs ++ tail) r)
      by done.
    unfold bind at 1.
    rewrite (IH rows' (advanced 1 (map (fun o => Yield (Obj o)) objs ++ tail) st)
               tail) by done.
    unfold ret. rewrite advanced_twice. do 3 f_equal. lia.
Qed.

(** The same for the loop of [list(self)]: the rows are put in front of
    whatever the rest of the source gives. *)
Lemma collect_rows objs : forall rows st tail fuel,
  _done_streaming st = false ->
  _streaming_result st = map (fun o => Yield (Obj o)) objs ++ tail ->
  Forall2 (fun o r => produce deserialize (row_factory st) o = inr r)
    objs rows ->
  gather (length objs + fuel) st =
    match gather fuel (advanced (length objs) tail st) with
    | Some (inr rs, st') => Some (inr (rows ++ rs), st')
    | other => other
    end.
Proof.
  induction objs as [|o objs IH]; intros rows st tail fuel Hd Hs Hall.
  - apply Forall2_nil_inv_l in Hall as ->. cbn in *.
    rewrite <- Hs, advanced_nothing.
    by destruct (gather fuel st) as [[[e|rs] st']|].
  - apply Forall2_cons_inv_l in Hall as (r & rows' & Hr & Hrows & ->).
    cbn [length Nat.add collect].
    rewrite (next_data_row st o (map (fun o => Yield (Obj o)) objs ++ tail) r)
      by done.
    rewrite (IH rows' (advanced 1 (map (fun o => Yield (Obj o)) objs ++ tail) st)
               tail fuel) by done.
    rewrite advanced_twice.
    replace (length objs + 1) with (S (length objs)) by lia.
    by destruct (gather fuel (advanced (S (length objs)) tail st))
      as [[[e|rs] st']|].
Qed.


Lemma stream_state_done st :
  stream_state st = Done <-> _done_streaming st = true.
Proof.
  unfold stream_state.
  destruct (_done_streaming st), (_started_streaming st); split; congruence.
Qed.

Lemma stream_state_streaming st :
  stream_state st = Streaming <->
  _done_streaming st = false /\ _started_streaming st = true.
Proof.
  unfold stream_state.
  destruct (_done_streaming st), (_started_streaming st);
    intuition congruence.
Qed.

Lemma keeps_ret {A} (a : A) : keeps (ret a).
Proof. by intros st. Qed.

Lemma keeps_raise {A} e : keeps (@raise A e).
Proof. by intros st. Qed.

Lemma keeps_get {A} (f : ViewRequest -> A) : keeps (get f).
Proof. by intros st. Qed.

Lemma keeps_lift {A} (r : exn + A) : keeps (lift r).
Proof. destruct r; [apply keeps_raise | apply keeps_ret]. Qed.

Lemma keeps_bind {A B} (c : M A) (k : A -> M B) :
  keeps c -> (forall a, keeps (k a)) -> keeps (bind c k).
Proof.
  intros Hc Hk st. unfold bind.
  destruct (Hc st) as [H1 H2]. destruct (c st) as [[e|a] st']; cbn in *.
  - done.
  - destruct (Hk a st') as [H3 H4]. split; congruence.
Qed.

Lemma keeps_try_except {A} (c : M A) (h : exn -> M A) :
  keeps c -> (forall e, keeps (h e)) -> keeps (try_except c h).
Proof.
  intros Hc Hh st. unfold try_except.
  destruct (Hc st) as [H1 H2]. destruct (c st) as [[e|a] st']; cbn in *.
  - destruct (Hh e st') as [H3 H4]. split; congruence.
  - done.
Qed.

Lemma keeps_pull : keeps next_streaming_result.
Proof.
  intros st. unfold next_streaming_result.
  by destruct (_streaming_result st) as [|[i|e] rest].
Qed.

Lemma keeps_set_metadata i : keeps (_set_metadata metadata_failure i).
Proof. by destruct i as [code msg| |[raw|m]]; intros st. Qed.

Lemma keeps_get_metadata :
  keeps (_get_metadata PYCBC_ERROR_MAP InternalSDKException_value py_str
           metadata_failure).
Proof.
  apply keeps_try_except.
  - apply keeps_bind; [apply keeps_pull | apply keeps_set_metadata].
  - intros [a|c m|c m]; apply keeps_raise.
Qed.

Lemma keeps_get_next_row :
  keeps (_get_next_row PYCBC_ERROR_MAP deserialize).
Proof.
  apply keeps_bind; [apply keeps_get|]. intros [|]; [apply keeps_ret|].
  apply keeps_bind; [apply keeps_pull|].
  intros [code msg| |o]; try apply keeps_raise.
  apply keeps_bind; [apply keeps_lift|]. intros d.
  apply keeps_bind; [apply keeps_get|].
  intros [ctor| |]; [|apply keeps_ret|apply keeps_raise].
  apply keeps_bind; [apply keeps_lift|]. intros r. apply keeps_ret.
Qed.

(** [__next__] never submits and never touches the started flag. *)
Lemma keeps_next : keeps next.
Proof.
  apply keeps_try_except; [apply keeps_get_next_row|].
  intros [a|c m|c m]; try apply keeps_raise.
  apply keeps_bind; [by intros st|]. intros _.
  apply keeps_bind; [apply keeps_get_metadata|]. intros _. apply keeps_raise.
Qed.

Lemma submitted_once_call c st :
  submitted_once st ->
  submitted_once
    (run_call PYCBC_ERROR_MAP InternalSDKException_value py_str deserialize
       metadata_failure c st).
Proof.
  intros [Hle Hz]. destruct c; unfold run_call.
  - destruct (_done_streaming st) eqn:Hd.
    + rewrite iter_done by done. cbn. by split.
    + destruct (_started_streaming st) eqn:Hs.
      * rewrite iter_streaming by done. cbn. split; [done|congruence].
      * rewrite iter_not_started by done. unfold submitted_once. cbn.
        rewrite Hz by done. split; [lia|discriminate].
  - destruct (keeps_next st) as [H1 H2]. unfold submitted_once.
    rewrite H1, H2. done.
Qed.

Lemma submitted_once_calls cs : forall st,
  submitted_once st -> submitted_once (calls cs st).
Proof.
  induction cs as [|c cs IH]; intros st Hst; [done|].
  cbn. apply IH. by apply submitted_once_call.
Qed.

(** *** Main theorems about the iterator *)

(** C1 (as amended): for a request that has not started and whose source
    yields N data rows the serializer and row factory accept, then the end
    sentinel, then the metadata response, draining returns exactly those N
    rows in source order and ends normally (the call after the last row
    raises [StopIteration]); exactly one further pull fetches the metadata
    (N + 2 pulls in all), the request is [Done], and [metadata()] holds what
    the source sent, so [total_rows()] is the count the source reported. *)
Theorem drain_rows_then_metadata st objs rows m rest fuel :
  _started_streaming st = false ->
  _done_streaming st = false ->
  _connection st =
    map (fun o => Yield (Obj o)) objs ++
    Yield PyNone :: Yield (Obj (Response m)) :: rest ->
  Forall2 (fun o r => produce deserialize (row_factory st) o = inr r)
    objs rows ->
  length objs < fuel ->
  let tail := Yield PyNone :: Yield (Obj (Response m)) :: rest in
  let final := completed (length objs + 2) rest m (opened st) in
  nexts (length objs) (opened st) =
    (inr rows, advanced (length objs) tail (opened st)) /\
  next (advanced (length objs) tail (opened st)) =
    (inl (StopIteration ""), final) /\
  drain fuel st = Some (inr rows, final) /\
  length rows = length objs /\
  stream_state final = Done /\
  pulled final = length objs + 2 + pulled st /\
  _streaming_result final = rest /\
  metadata final = Some m /\
  total_rows <$> metadata final = Some (total_rows m).
Proof.
  intros Hs Hd Hc Hall Hfuel tail final.
  assert (Hn : nexts (length objs) (opened st) =
                 (inr rows, advanced (length objs) tail (opened st))).
  { by apply next_n_rows. }
  assert (Hlast : next (advanced (length objs) tail (opened st)) =
                    (inl (StopIteration ""), final)).
  { rewrite (next_sentinel _ m rest) by done.
    by rewrite completed_advanced. }
  repeat split; try done.
  - unfold execute, py_list. rewrite iter_not_started by done.
    replace fuel with (length objs + S (fuel - S (length objs))) by lia.
    rewrite (collect_rows objs rows (opened st) tail) by done.
    cbn [collect]. rewrite Hlast. cbn. by rewrite app_nil_r, map_id.
  - symmetry. by eapply Forall2_length.
Qed.

(** C2 (as amended): when the source yields an in-stream error marker,
    [__next__] raises the exception mapped from the marker's code, with no
    metadata fetch: one pull, the metadata unchanged.  The done flag is not
    set: the request stays in the state it was in. *)
Theorem marker_raises_mapped_exception st code msg rest :
  _done_streaming st = false ->
  _streaming_result st = Yield (ErrorMarker code msg) :: rest ->
  fst (next st) = inl (mapped code msg) /\
  mapped code msg =
    CouchbaseExc (default "CouchbaseException" (PYCBC_ERROR_MAP !! code)) msg /\
  pulled (snd (next st)) = S (pulled st) /\
  _streaming_result (snd (next st)) = rest /\
  metadata (snd (next st)) = metadata st /\
  _done_streaming (snd (next st)) = false /\
  stream_state (snd (next st)) = stream_state st.
Proof.
  intros Hd Hs. rewrite (next_marker st code msg rest) by done. cbn.
  repeat split; try done.
Qed.

(** C3: when the first item of the source is an in-stream error marker,
    iteration submits the query and the first [__next__] raises the mapped
    exception, so no row is yielded and draining ends with that exception;
    [metadata()] stays unset. *)
Theorem first_item_marker st code msg rest fuel :
  _started_streaming st = false ->
  _done_streaming st = false ->
  _metadata st = None ->
  _connection st = Yield (ErrorMarker code msg) :: rest ->
  0 < fuel ->
  __iter__ st = (inr tt, opened st) /\
  next (opened st) = (inl (mapped code msg), advanced 1 rest (opened st)) /\
  drain fuel st = Some (inl (mapped code msg), advanced 1 rest (opened st)) /\
  metadata (advanced 1 rest (opened st)) = None /\
  (forall cls, PYCBC_ERROR_MAP !! code = Some cls ->
     mapped code msg = CouchbaseExc cls msg).
Proof.
  intros Hs Hd Hm Hc Hfuel.
  assert (Hn : next (opened st) =
                 (inl (mapped code msg), advanced 1 rest (opened st))).
  { by apply next_marker. }
  repeat split; try done.
  - by apply iter_not_started.
  - unfold execute, py_list. rewrite iter_not_started by done.
    destruct fuel as [|fuel]; [lia|]. cbn [collect]. by rewrite Hn.
  - intros cls Hcls. unfold build_exception, error_class. by rewrite Hcls.
Qed.

(** C4: once a request is [Done], beginning iteration again raises
    [AlreadyQueriedException], and so does draining it. *)
Theorem iter_after_done_already_queried st :
  stream_state st = Done ->
  __iter__ st = (inl AlreadyQueriedException, st) /\
  forall fuel, drain fuel st = Some (inl AlreadyQueriedException, st).
Proof.
  intros Hd%stream_state_done. split; [by apply iter_done|].
  intros fuel. unfold execute, py_list. by rewrite iter_done.
Qed.

(** C5 (as amended): an exception that is neither a Couchbase exception nor
    [StopIteration], raised by the source or while the pulled row is
    deserialized and converted, leaves [__next__] wrapped in the
    internal-SDK exception class with [str] of the original as message.  The
    done flag is not set: the request stays in the state it was in. *)
Theorem other_exception_wrapped st cls msg rest :
  _done_streaming st = false ->
  (_streaming_result st = Throw (OtherExc cls msg) :: rest \/
   exists o, _streaming_result st = Yield (Obj o) :: rest /\
             produce deserialize (row_factory st) o = inl (OtherExc cls msg)) ->
  fst (next st) =
    inl (CouchbaseExc
           (default "CouchbaseException"
              (PYCBC_ERROR_MAP !! InternalSDKException_value))
           (py_str (OtherExc cls msg))) /\
  _done_streaming (snd (next st)) = false /\
  stream_state (snd (next st)) = stream_state st /\
  metadata (snd (next st)) = metadata st.
Proof.
  intros Hd [Hs|(o & Hs & Hp)].
  - rewrite (next_source_raises st cls msg rest) by done. by cbn.
  - rewrite (next_bad_row st o rest cls msg) by done. by cbn.
Qed.

(** C9: on a request whose done flag is set, [__next__] returns [None]; it
    raises nothing and pulls nothing from the source. *)
Theorem next_after_done_returns_none st :
  _done_streaming st = true ->
  __next__ PYCBC_ERROR_MAP InternalSDKException_value py_str deserialize
    metadata_failure st = (inr RNone, st) /\
  pulled (snd (next st)) = pulled st /\
  _streaming_result (snd (next st)) = _streaming_result st /\
  stream_state (snd (next st)) = Done.
Proof.
  intros Hd. rewrite next_when_done by done. cbn.
  repeat split. by apply stream_state_done.
Qed.

(** C10: [__iter__] on a request that is [Streaming] returns the iterator
    and leaves it as it is, so nothing is submitted; and whatever calls of
    [__iter__] and [__next__] are made on a new request, the query is
    submitted at most once. *)
Theorem iter_submits_at_most_once :
  (forall st, stream_state st = Streaming ->
     __iter__ st = (inr tt, st) /\
     submitted (snd (__iter__ st)) = submitted st) /\
  (forall cs st, _started_streaming st = false -> submitted st = 0 ->
     submitted (calls cs st) <= 1).
Proof.
  split.
  - intros st [Hd Hs]%stream_state_streaming.
    by rewrite iter_streaming.
  - intros cs st Hs Hz.
    apply (submitted_once_calls cs st). split; [lia|done].
Qed.

(** ** Further properties of the iterator *)

(** Every path through [__next__] at once: the done flag, the source, what
    was pulled, the serializer, the row factory and the metadata response. *)
Ltac next_cases :=
  run; repeat (case_match; simplify_eq/=; try done).

Lemma next_stop_completes st a :
  fst (next st) = inl (StopIteration a) ->
  _done_streaming (snd (next st)) = true /\ is_Some (metadata (snd (next st))).
Proof. next_cases. Qed.

(** A returned row is the head of the source, converted. *)
Lemma next_row_inv st r st' :
  _done_streaming st = false ->
  next st = (inr r, st') ->
  exists o rest,
    _streaming_result st = Yield (Obj o) :: rest /\
    produce deserialize (row_factory st) o = inr r /\
    st' = advanced 1 rest st.
Proof.
  intros Hd. run. rewrite Hd. unfold produce.
  repeat (case_match; simplify_eq/=; try done); intros; simplify_eq;
    eexists _, _; (split; [done|]);
    repeat match goal with H : _ = _ |- _ => rewrite H end; done.
Qed.

Lemma next_done_stays st :
  _done_streaming st = true -> _done_streaming (snd (next st)) = true.
Proof. intros Hd. by rewrite next_when_done. Qed.

Lemma next_metadata_guarded st :
  _metadata (snd (next st)) = _metadata st \/
  _done_streaming (snd (next st)) = true.
Proof. next_cases; auto. Qed.

Lemma call_done_frozen c st :
  _done_streaming st = true ->
  run_call PYCBC_ERROR_MAP InternalSDKException_value py_str deserialize
    metadata_failure c st = st.
Proof.
  intros Hd. destruct c; unfold run_call.
  - by rewrite iter_done.
  - by rewrite next_when_done.
Qed.

Lemma collect_terminates fuel : forall st,
  _done_streaming st = false ->
  length (_streaming_result st) < fuel ->
  is_Some (gather fuel st).
Proof.
  induction fuel as [|fuel IH]; intros st Hd Hlen; [lia|].
  cbn [collect]. destruct (next st) as [[e|r] st'] eqn:Hn.
  - destruct e; by eexists.
  - destruct (next_row_inv st r st' Hd Hn) as (o & rest & Hs & _ & ->).
    destruct (IH (advanced 1 rest st)) as [[[e|rs] st''] Hc].
    + done.
    + cbn. rewrite Hs in Hlen. cbn in Hlen. lia.
    + rewrite Hc. by eexists.
    + rewrite Hc. by eexists.
Qed.

Lemma collect_returns_complete fuel : forall st rows st',
  gather fuel st = Some (inr rows, st') ->
  _done_streaming st' = true /\ is_Some (metadata st').
Proof.
  induction fuel as [|fuel IH]; intros st rows st' Hc; [done|].
  cbn [collect] in Hc.
  pose proof (next_stop_completes st) as Hstop.
  destruct (next st) as [[[a|cls msg|cls msg]|r] st1]; cbn in Hstop.
  - injection Hc as <- <-. by apply (Hstop a).
  - done.
  - done.
  - destruct (gather fuel st1) as [[[e1|rs] st2]|] eqn:Hc1; [done| |done].
    injection Hc as <- <-. by eapply IH.
Qed.

(** The end sentinel on a source that has nothing after it. *)
Lemma metadata_fetch_failure_exhausted st :
  _done_streaming st = false ->
  _streaming_result st = [Yield PyNone] ->
  next st = (inl (wrap (StopIteration "")),
             set_done_streaming true (advanced 2 [] st)).
Proof. intros Hd Hs. run. by rewrite Hd, Hs. Qed.

Ltac consumed k :=
  exists k; split; [lia|]; split; [cbn; lia|]; split; [|by split]; cbn;
  first [ done
        | by repeat match goal with
                    | H : _streaming_result _ = _ |- _ => rewrite H
                    end ].

(** *** Further main theorems *)

(** X4: a request whose done flag is set is frozen: no sequence of
    [__iter__] and [__next__] calls changes any of its attributes. *)
Theorem done_request_frozen cs st :
  _done_streaming st = true ->
  run_calls PYCBC_ERROR_MAP InternalSDKException_value py_str deserialize
    metadata_failure cs st = st.
Proof.
  intros Hd. induction cs as [|c cs IH]; [done|].
  cbn. by rewrite call_done_frozen.
Qed.

(** X5: once the done flag is set [__next__] never raises [StopIteration]
    again: [n] calls return [n] times [None], and a loop that calls
    [__next__] until [StopIteration] does not end, whatever the fuel. *)
Theorem next_after_done_never_ends st :
  _done_streaming st = true ->
  (forall n,
     next_n PYCBC_ERROR_MAP InternalSDKException_value py_str deserialize
       metadata_failure n st = (inr (replicate n RNone), st)) /\
  (forall fuel,
     collect PYCBC_ERROR_MAP InternalSDKException_value py_str deserialize
       metadata_failure fuel st = None).
Proof.
  intros Hd. split.
  - induction n as [|n IH]; [done|].
    cbn [next_n replicate]. unfold bind at 1. rewrite next_when_done by done.
    unfold bind at 1. by rewrite IH.
  - induction fuel as [|fuel IH]; [done|].
    cbn [collect]. rewrite next_when_done by done. by rewrite IH.
Qed.

(** X6: when the metadata retrieval after the end sentinel fails, the caller
    does not get [StopIteration]: an exhausted source gives the internal-SDK
    exception, a [CouchbaseException] of the source passes as it is, any
    other exception is wrapped.  The done flag is set all the same and the
    metadata is left as it was. *)
Theorem metadata_fetch_failure st :
  _done_streaming st = false ->
  (_streaming_result st = [Yield PyNone] ->
     next st = (inl (wrap (StopIteration "")),
                set_done_streaming true (advanced 2 [] st))) /\
  (forall cls msg rest,
     _streaming_result st =
       Yield PyNone :: Throw (CouchbaseExc cls msg) :: rest ->
     next st = (inl (CouchbaseExc cls msg),
                set_done_streaming true (advanced 2 rest st))) /\
  (forall cls msg rest,
     _streaming_result st = Yield PyNone :: Throw (OtherExc cls msg) :: rest ->
     next st = (inl (wrap (OtherExc cls msg)),
                set_done_streaming true (advanced 2 rest st))) /\
  (forall a rest,
     _streaming_result st = Yield PyNone :: Throw (StopIteration a) :: rest ->
     next st = (inl (wrap (StopIteration a)),
                set_done_streaming true (advanced 2 rest st))).
Proof.
  intros Hd. repeat split; intros; run; by rewrite Hd, H.
Qed.

Lemma call_metadata_guarded c st :
  (is_Some (_metadata st) -> _done_streaming st = true) ->
  is_Some
    (_metadata (run_call PYCBC_ERROR_MAP InternalSDKException_value py_str
                  deserialize metadata_failure c st)) ->
  _done_streaming (run_call PYCBC_ERROR_MAP InternalSDKException_value py_str
                     deserialize metadata_failure c st) = true.
Proof.
  intros Hinv. destruct c; unfold run_call.
  - destruct (_done_streaming st) eqn:Hd.
    + by rewrite iter_done.
    + destruct (_started_streaming st) eqn:Hs.
      * rewrite iter_streaming by done. cbn. intros Hm. by apply Hinv in Hm.
      * rewrite iter_not_started by done. cbn. intros Hm.
        by apply Hinv in Hm.
  - destruct (next_metadata_guarded st) as [Hm|Hdone]; [|done].
    rewrite Hm. intros Hsome. by apply next_done_stays, Hinv.
Qed.

Lemma call_rank_grows c st :
  state_rank (stream_state st) <=
  state_rank
    (stream_state (run_call PYCBC_ERROR_MAP InternalSDKException_value py_str
                     deserialize metadata_failure c st)).
Proof.
  destruct c; unfold run_call.
  - destruct (_done_streaming st) eqn:Hd.
    + by rewrite iter_done.
    + destruct (_started_streaming st) eqn:Hs.
      * by rewrite iter_streaming.
      * rewrite iter_not_started by done. unfold stream_state. cbn.
        rewrite Hd, Hs. cbn. lia.
  - destruct (keeps_next st) as [_ Hs]. unfold stream_state. rewrite Hs.
    destruct (_done_streaming st) eqn:Hd.
    + by rewrite next_done_stays.
    + destruct (_done_streaming (snd (next st))), (_started_streaming st);
        cbn; lia.
Qed.

(** X7: when the source ends right after the end sentinel, with no metadata
    response, [execute] raises the internal-SDK exception instead of
    returning the N rows it has pulled; the request is [Done] and its
    metadata is still what it was. *)
Theorem execute_missing_trailer_raises st objs rows fuel :
  _started_streaming st = false ->
  _done_streaming st = false ->
  _connection st = map (fun o => Yield (Obj o)) objs ++ [Yield PyNone] ->
  Forall2 (fun o r => produce deserialize (row_factory st) o = inr r)
    objs rows ->
  length objs < fuel ->
  execute PYCBC_ERROR_MAP InternalSDKException_value py_str deserialize
    metadata_failure fuel st =
    Some (inl (wrap (StopIteration "")),
          set_done_streaming true (advanced (length objs + 2) [] (opened st)))
  /\ stream_state
       (set_done_streaming true (advanced (length objs + 2) [] (opened st))) =
     Done
  /\ metadata
       (set_done_streaming true (advanced (length objs + 2) [] (opened st))) =
     metadata st.
Proof.
  intros Hs Hd Hc Hall Hfuel. split; [|done].
  unfold execute, py_list. rewrite iter_not_started by done.
  replace fuel with (length objs + S (fuel - S (length objs))) by lia.
  rewrite (collect_rows objs rows (opened st) [Yield PyNone]) by done.
  cbn [collect].
  rewrite (metadata_fetch_failure_exhausted
             (advanced (length objs) [Yield PyNone] (opened st))) by done.
  rewrite advanced_twice. cbn.
  by replace (length objs + 2) with (S (S (length objs))) by lia.
Qed.

(** X8: a source that is exhausted without having sent the end sentinel is
    taken for the end of the stream, and the failed metadata retrieval makes
    [__next__] raise the internal-SDK exception: two pulls, the done flag
    set, no metadata.  Draining a new request on such a source raises it
    too, rather than returning the empty list. *)
Theorem exhausted_source_is_internal_error :
  (forall st,
     _done_streaming st = false -> _streaming_result st = [] ->
     next st = (inl (wrap (StopIteration "")),
                set_done_streaming true (advanced 2 [] st))) /\
  (forall st fuel,
     _started_streaming st = false -> _done_streaming st = false ->
     _connection st = [] -> 0 < fuel ->
     execute PYCBC_ERROR_MAP InternalSDKException_value py_str deserialize
       metadata_failure fuel st =
     Some (inl (wrap (StopIteration "")),
           set_done_streaming true (advanced 2 [] (opened st)))).
Proof.
  assert (Hnext : forall st,
            _done_streaming st = false -> _streaming_result st = [] ->
            next st = (inl (wrap (StopIteration "")),
                       set_done_streaming true (advanced 2 [] st))).
  { intros st Hd Hs. run. rewrite Hd, Hs. cbn. rewrite Hs. cbn.
    unfold count_pull, set_done_streaming, advanced. cbn. by rewrite Hs. }
  split; [exact Hnext|].
  intros st fuel Hs Hd Hc Hfuel. unfold execute, py_list.
  rewrite iter_not_started by done. destruct fuel as [|fuel]; [lia|].
  cbn [collect]. by rewrite (Hnext (opened st)) by done.
Qed.

(** X9: a [CouchbaseException] raised by the source, by the serializer or by
    the row factory leaves [__next__] as it is, not wrapped; the item is
    consumed and the done flag is not set. *)
Theorem couchbase_exception_unchanged st cls msg rest :
  _done_streaming st = false ->
  (_streaming_result st = Throw (CouchbaseExc cls msg) :: rest \/
   exists o, _streaming_result st = Yield (Obj o) :: rest /\
             produce deserialize (row_factory st) o =
               inl (CouchbaseExc cls msg)) ->
  __next__ PYCBC_ERROR_MAP InternalSDKException_value py_str deserialize
    metadata_failure st =
  (inl (CouchbaseExc cls msg), advanced 1 rest st).
Proof.
  intros Hd [Hs|(o & Hs & Hp)]; run; rewrite Hd, Hs; [done|]. cbn.
  unfold produce in Hp.
  destruct (deserialize o) as [e|d]; cbn; [by simplify_eq|].
  destruct (row_factory st) as [ctor| |]; cbn; [|done..].
  destruct (ctor d); by simplify_eq.
Qed.

(** X10: [execute] returns a list only from a request it leaves [Done] and
    with its metadata set: rows never come back from a drain that did not
    reach the metadata. *)
Theorem execute_returns_only_when_complete fuel st rows st' :
  execute PYCBC_ERROR_MAP InternalSDKException_value py_str deserialize
    metadata_failure fuel st = Some (inr rows, st') ->
  stream_state st' = Done /\ is_Some (metadata st').
Proof.
  unfold execute, py_list. destruct (__iter__ st) as [[e0|[]] st0]; [done|].
  destruct (gather fuel st0) as [[[e1|rs] st1]|] eqn:Hc; [done| |done].
  intros [= _ <-]. rewrite stream_state_done.
  by eapply collect_returns_complete.
Qed.

(** X11: one [__next__] takes at most two items, from the front of the
    source and in order (the row or sentinel, and after a sentinel the
    metadata response); it puts nothing back and leaves the connection and
    the row factory alone. *)
Theorem next_consumes_front st :
  exists k,
    k <= 2 /\
    pulled (snd (__next__ PYCBC_ERROR_MAP InternalSDKException_value py_str
                   deserialize metadata_failure st)) = k + pulled st /\
    _streaming_result (snd (next st)) = drop k (_streaming_result st) /\
    _connection (snd (next st)) = _connection st /\
    row_factory (snd (next st)) = row_factory st.
Proof.
  run. repeat (case_match; simplify_eq/=).
  all: first [consumed 0 | consumed 1 | consumed 2].
Qed.

(** X12: draining ends: with more fuel than the source has items left after
    [__iter__], [execute] has an answer, a list or an exception. *)
Theorem drain_terminates st fuel :
  length (_streaming_result (snd (__iter__ st))) < fuel ->
  is_Some (execute PYCBC_ERROR_MAP InternalSDKException_value py_str
             deserialize metadata_failure fuel st).
Proof.
  unfold execute, py_list. destruct (_done_streaming st) eqn:Hd.
  { rewrite iter_done by done. by eexists. }
  assert (Hgo : forall st0,
            _done_streaming st0 = false ->
            length (_streaming_result st0) < fuel ->
            is_Some match gather fuel st0 with
                    | Some (inr rs, st') =>
                        Some (inr (map (fun r => r) rs), st')
                    | other => other
                    end).
  { intros st0 Hd0 Hlen.
    destruct (collect_terminates fuel st0 Hd0 Hlen) as [[[e|rs] st1] ->];
      by eexists. }
  destruct (_started_streaming st) eqn:Hs.
  - rewrite iter_streaming by done. cbn. by apply Hgo.
  - rewrite iter_not_started by done. cbn. intros Hlen.
    by apply (Hgo (opened st)).
Qed.

(** X13: the metadata is never there before the request is [Done]: on a
    request that starts without metadata, after any calls of [__iter__] and
    [__next__], [metadata()] is set only if the done flag is. *)
Theorem metadata_only_when_done cs st :
  _metadata st = None ->
  is_Some
    (metadata (run_calls PYCBC_ERROR_MAP InternalSDKException_value py_str
                 deserialize metadata_failure cs st)) ->
  stream_state (run_calls PYCBC_ERROR_MAP InternalSDKException_value py_str
                  deserialize metadata_failure cs st) = Done.
Proof.
  intros Hnone. rewrite stream_state_done. unfold metadata.
  assert (Hinv : is_Some (_metadata st) -> _done_streaming st = true).
  { rewrite Hnone. by intros [? ?]. }
  clear Hnone. revert st Hinv.
  induction cs as [|c cs IH]; intros st Hinv; [done|].
  cbn. apply IH. by apply call_metadata_guarded.
Qed.

(** X14: draining a request that is already [Streaming] submits nothing and
    returns only the rows not pulled yet: no row is delivered twice. *)
Theorem execute_on_streaming_returns_rest st objs rows m rest fuel :
  stream_state st = Streaming ->
  _streaming_result st =
    map (fun o => Yield (Obj o)) objs ++
    Yield PyNone :: Yield (Obj (Response m)) :: rest ->
  Forall2 (fun o r => produce deserialize (row_factory st) o = inr r)
    objs rows ->
  length objs < fuel ->
  execute PYCBC_ERROR_MAP InternalSDKException_value py_str deserialize
    metadata_failure fuel st =
    Some (inr rows, completed (length objs + 2) rest m st) /\
  submitted (completed (length objs + 2) rest m st) = submitted st.
Proof.
  intros [Hd Hs]%stream_state_streaming Hsrc Hall Hfuel. split; [|done].
  unfold execute, py_list. rewrite iter_streaming by done.
  replace fuel with (length objs + S (fuel - S (length objs))) by lia.
  rewrite (collect_rows objs rows st
             (Yield PyNone :: Yield (Obj (Response m)) :: rest)) by done.
  cbn [collect]. rewrite (next_sentinel _ m rest) by done.
  rewrite completed_advanced. cbn. by rewrite app_nil_r, map_id.
Qed.

(** X15: the lifecycle only moves forward: no sequence of [__iter__] and
    [__next__] calls takes a request back from [Done] or from
    [Streaming]. *)
Theorem lifecycle_moves_forward cs st :
  state_rank (stream_state st) <=
  state_rank
    (stream_state (run_calls PYCBC_ERROR_MAP InternalSDKException_value
                     py_str deserialize metadata_failure cs st)).
Proof.
  revert st. induction cs as [|c cs IH]; intros st; [done|].
  cbn. etrans; [apply (call_rank_grows c)|apply IH].
Qed.

(** X16: while the request is streaming, a value returned by [__next__] is
    the item at the head of the source, deserialized and passed through the
    row factory; exactly that item is consumed and nothing else changes. *)
Theorem returned_row_is_head_of_source st r st' :
  _done_streaming st = false ->
  __next__ PYCBC_ERROR_MAP InternalSDKException_value py_str deserialize
    metadata_failure st = (inr r, st') ->
  exists o rest,
    _streaming_result st = Yield (Obj o) :: rest /\
    produce deserialize (row_factory st) o = inr r /\
    st' = advanced 1 rest st /\
    pulled st' = S (pulled st).
Proof.
  intros Hd Hn.
  destruct (next_row_inv st r st' Hd Hn) as (o & rest & Hs & Hp & ->).
  by exists o, rest.
Qed.

End ViewRequestProperties.

(** ** Properties of the parameter builder *)

Section ApplySettings.

Implicit Types (l : list (string * option (exn + encval))).
Implicit Types (p : gmap string encval).

Lemma apply_settings_dom l : forall p p',
  apply_settings l p = inr p' -> dom p' = dom p ∪ given_names l.
Proof.
  induction l as [|[name [[e|v]|]] l IH]; intros p p' Hp; cbn in *.
  - inversion Hp. set_solver.
  - discriminate.
  - rewrite (IH _ _ Hp), dom_insert_L. set_solver.
  - rewrite (IH _ _ Hp). set_solver.
Qed.

(** A field no setting names keeps the value it had. *)
Lemma apply_settings_other l name : forall p p',
  name ∉ l.*1 -> apply_settings l p = inr p' -> p' !! name = p !! name.
Proof.
  induction l as [|[name' [[e|v]|]] l IH]; intros p p' Hn Hp; cbn in *.
  - by inversion Hp.
  - discriminate.
  - apply not_elem_of_cons in Hn as [Hne Hn].
    rewrite (IH _ _ Hn Hp). by apply lookup_insert_ne.
  - apply not_elem_of_cons in Hn as [Hne Hn]. by apply (IH _ _ Hn Hp).
Qed.

(** A field named once holds what its setting encodes. *)
Lemma apply_settings_lookup l name v : forall p p',
  NoDup l.*1 -> (name, Some (inr v)) ∈ l ->
  apply_settings l p = inr p' -> p' !! name = Some v.
Proof.
  induction l as [|[name' o] l IH]; intros p p' Hnd Hin Hp.
  - by apply elem_of_nil in Hin.
  - cbn in Hnd. apply NoDup_cons in Hnd as [Hfresh Hnd].
    apply elem_of_cons in Hin as [Heq|Hin].
    + inversion Heq; subst. cbn in Hp.
      rewrite (apply_settings_other _ _ _ _ Hfresh Hp).
      apply lookup_insert_eq.
    + destruct o as [[e|v']|]; cbn in Hp; [discriminate| |]; by eapply IH.
Qed.

Lemma apply_settings_values (P : encval -> Prop) l : forall p p',
  Forall (fun s => forall v, s.2 = Some (inr v) -> P v) l ->
  (forall k v, p !! k = Some v -> P v) ->
  apply_settings l p = inr p' ->
  forall k v, p' !! k = Some v -> P v.
Proof.
  induction l as [|[name [[e|v']|]] l IH]; intros p p' Hall Hp Happ;
    cbn in *.
  - by inversion Happ; subst.
  - discriminate.
  - apply Forall_cons in Hall as [Hv Hall].
    eapply IH; [exact Hall| |exact Happ].
    intros k v. destruct (decide (name = k)) as [->|Hne].
    + rewrite lookup_insert_eq. intros [= <-]. by apply Hv.
    + rewrite lookup_insert_ne by done. apply Hp.
  - apply Forall_cons in Hall as [_ Hall]. by eapply IH.
Qed.

(** The build goes through when no given option is refused. *)
Lemma apply_settings_accepts l : forall p,
  Forall (fun s => forall e, s.2 <> Some (inl e)) l ->
  exists p', apply_settings l p = inr p'.
Proof.
  induction l as [|[name [[e|v]|]] l IH]; intros p Hall; cbn.
  - by eexists.
  - apply Forall_cons in Hall as [He _]. by destruct (He e).
  - apply Forall_cons in Hall as [_ Hall]. by apply IH.
  - apply Forall_cons in Hall as [_ Hall]. by apply IH.
Qed.

End ApplySettings.

Section ViewQueryProperties.

Variable json_dumps : json -> string.
Variable namespace_value : DesignDocumentNamespace -> string.
Variable on_error_value : ViewErrorMode -> string.
Variable order_value : ViewOrdering -> string.
Variable scan_consistency_value : ViewScanConsistency -> string.

Local Abbreviation fields :=
  (settings json_dumps namespace_value on_error_value order_value
     scan_consistency_value).
Local Abbreviation build :=
  (create_view_query_object json_dumps namespace_value on_error_value
     order_value scan_consistency_value).

Lemma given_always {A} (f : A -> encval) o : given (always f o) = given o.
Proof. by destruct o. Qed.

Lemma given_checked {A} (f : A -> exn + encval) o :
  given (checked f o) = given o.
Proof. by destruct o. Qed.

Lemma always_value {A} (f : A -> encval) o v :
  always f o = Some (inr v) -> exists a, o = Some a /\ v = f a.
Proof. destruct o as [a|]; [|done]. intros [= <-]. by exists a. Qed.

Lemma non_negative_value n v : non_negative n = inr v -> v = EInt n.
Proof. unfold non_negative. by destruct (n <? 0)%Z; intros [= <-]. Qed.

Lemma encode_timeout_value t v :
  encode_timeout t = inr v -> exists us, to_microseconds t = inr us /\ v = EInt us.
Proof.
  unfold encode_timeout. destruct (to_microseconds t) as [e|us]; [done|].
  intros [= <-]. by exists us.
Qed.

Lemma non_negative_accepts n : (0 <= n)%Z -> non_negative n = inr (EInt n).
Proof.
  intros Hn. unfold non_negative.
  by destruct (Z.ltb_spec n 0); [lia|].
Qed.

(** Every accepted timeout has a microsecond count, and it is not
    negative. *)
Lemma to_microseconds_accepts t :
  valid_timeout t -> exists us, to_microseconds t = inr us /\ (0 <= us)%Z.
Proof.
  destruct t as [d|s|m e|]; cbn; intros Hv; [| | |done].
  - destruct (Z.ltb_spec (total_microseconds d) 0); [lia|]. by eexists.
  - destruct (Z.ltb_spec s 0); [lia|]. eexists. split; [done|lia].
  - destruct (Z.ltb_spec m 0); [lia|]. eexists. split; [done|].
    unfold float_microseconds. destruct (Z.leb_spec 0 e).
    + assert (0 <= 2 ^ e)%Z by (apply Z.pow_nonneg; lia). nia.
    + apply Z.quot_pos; [lia|]. apply Z.pow_pos_nonneg; lia.
Qed.


Lemma settings_names_distinct opts : NoDup (fields opts).*1.
Proof. cbn. compute_done. Qed.

Lemma identity_not_an_option opts k :
  k ∈ identity_fields -> k ∉ (fields opts).*1.
Proof.
  unfold identity_fields. cbn.
  intros [[->%elem_of_singleton| ->%elem_of_singleton]%elem_of_union
         | ->%elem_of_singleton]%elem_of_union; compute_done.
Qed.

(** The names the settings write are the canonical names of the options
    that are set. *)
Lemma settings_given_names opts k :
  k ∈ given_names (fields opts) <->
  exists n, is_set opts n = true /\ k = canonical_name n.
Proof.
  unfold settings. cbn [given_names].
  rewrite !given_always, !given_checked. split.
  - intros H.
    repeat (apply elem_of_union in H as [H|H]);
      try (by apply elem_of_empty in H);
      (match type of H with
       | _ ∈ (if given ?x then _ else _) =>
           destruct (given x) eqn:E;
           [apply elem_of_singleton in H as ->|by apply elem_of_empty in H]
       end);
      first
        [ by exists Oclient_context_id | by exists Odebug | by exists Oendkey
        | by exists Oendkey_docid | by exists Ogroup | by exists Ogroup_level
        | by exists Oinclusive_end | by exists Okey | by exists Okeys
        | by exists Olimit | by exists Onamespace | by exists Oon_error
        | by exists Oorder | by exists Oreduce | by exists Oscan_consistency
        | by exists Oserializer | by exists Oskip | by exists Ostartkey
        | by exists Ostartkey_docid | by exists Otimeout ].
  - intros (n & Hset & ->).
    destruct n; cbn in Hset; rewrite Hset; cbn [canonical_name];
      repeat (first [ apply elem_of_union_l, elem_of_singleton; reflexivity
                    | apply elem_of_union_r ]).
Qed.

(** No setting encodes a given option as [None]. *)
Lemma settings_no_none opts :
  Forall (fun s => forall v, s.2 = Some (inr v) -> v <> ENone) (fields opts).
Proof.
  unfold settings.
  repeat (apply Forall_cons; split); try (by apply Forall_nil); cbn; intros v Hv;
    first
      [ by apply always_value in Hv as (a & _ & ->)
      | destruct (group_level opts) as [n|]; [|done]; cbn in Hv;
        injection Hv as Hv; by apply non_negative_value in Hv as ->
      | destruct (limit opts) as [n|]; [|done]; cbn in Hv;
        injection Hv as Hv; by apply non_negative_value in Hv as ->
      | destruct (skip opts) as [n|]; [|done]; cbn in Hv;
        injection Hv as Hv; by apply non_negative_value in Hv as ->
      | destruct (timeout opts) as [t|]; [|done]; cbn in Hv;
        injection Hv as Hv;
        by apply encode_timeout_value in Hv as (us & _ & ->) ].
Qed.

(** Valid options are never refused. *)
Lemma settings_accept_valid opts :
  valid_options opts ->
  Forall (fun s => forall e, s.2 <> Some (inl e)) (fields opts).
Proof.
  intros (Hg & Hl & Hs & Ht). unfold settings.
  repeat (apply Forall_cons; split); try (by apply Forall_nil); cbn; intros e;
    try (match goal with
         | |- always _ ?o <> _ => by destruct o
         end).
  - destruct (group_level opts) as [n|]; [|done]. cbn in *.
    by rewrite non_negative_accepts.
  - destruct (limit opts) as [n|]; [|done]. cbn in *.
    by rewrite non_negative_accepts.
  - destruct (skip opts) as [n|]; [|done]. cbn in *.
    by rewrite non_negative_accepts.
  - destruct (timeout opts) as [t|]; [|done]. cbn.
    destruct (to_microseconds_accepts t Ht) as (us & Hus & _).
    unfold encode_timeout. by rewrite Hus.
Qed.


(** A given option is found under its field name with its encoding. *)
Lemma build_lookup bucket ddoc view opts q name v :
  build bucket ddoc view opts = inr q ->
  (name, Some (inr v)) ∈ fields opts ->
  as_encodable q !! name = Some v.
Proof.
  unfold create_view_query_object, as_encodable. intros Hb Hin.
  destruct (apply_settings _ _) as [e|p] eqn:Hp; [done|].
  injection Hb as <-. cbn.
  eapply apply_settings_lookup; [apply settings_names_distinct|done|done].
Qed.

Lemma elem_of_identity_fields k :
  k ∈ identity_fields <->
  k = "bucket_name" \/ k = "document_name" \/ k = "view_name".
Proof.
  unfold identity_fields. rewrite !elem_of_union, !elem_of_singleton. tauto.
Qed.

(** What the builder starts from: the identity fields alone. *)
Lemma identity_params_dom bucket ddoc view k :
  k ∈ dom (<["bucket_name" := EStr bucket]>
             (<["document_name" := EStr ddoc]>
                (<["view_name" := EStr view]> (∅ : gmap string encval)))) <->
  k ∈ identity_fields.
Proof.
  rewrite !dom_insert_L, dom_empty_L, elem_of_identity_fields.
  rewrite !elem_of_union, !elem_of_singleton, elem_of_empty. tauto.
Qed.

Lemma identity_params_no_none bucket ddoc view k v :
  (<["bucket_name" := EStr bucket]>
     (<["document_name" := EStr ddoc]>
        (<["view_name" := EStr view]> (∅ : gmap string encval)))) !! k =
    Some v ->
  v <> ENone.
Proof. rewrite !lookup_insert. repeat case_decide; intros [=]; by subst. Qed.

(** The options never write an identity field. *)
Lemma build_keeps_identity opts p0 p k :
  k ∈ identity_fields ->
  apply_settings (fields opts) p0 = inr p -> p !! k = p0 !! k.
Proof.
  intros Hk Hp.
  eapply apply_settings_other; [by apply identity_not_an_option|done].
Qed.

(** *** Main theorems about the builder *)

(** C6: for every valid combination of options the build succeeds, and the
    fields of [as_encodable()] are exactly the three identity fields and the
    canonical fields of the options that were set; the identity fields hold
    the names given, and no field holds [None]. *)
Theorem as_encodable_exact_fields bucket ddoc view opts :
  valid_options opts ->
  exists q,
    build bucket ddoc view opts = inr q /\
    (forall k, k ∈ dom (as_encodable q) <->
       k ∈ identity_fields \/
       exists n, is_set opts n = true /\ k = canonical_name n) /\
    as_encodable q !! "bucket_name" = Some (EStr bucket) /\
    as_encodable q !! "document_name" = Some (EStr ddoc) /\
    as_encodable q !! "view_name" = Some (EStr view) /\
    (forall k v, as_encodable q !! k = Some v -> v <> ENone).
Proof.
  intros Hvalid. unfold create_view_query_object, as_encodable.
  destruct (apply_settings_accepts (fields opts)
              (<["bucket_name" := EStr bucket]>
                 (<["document_name" := EStr ddoc]>
                    (<["view_name" := EStr view]> ∅)))
              (settings_accept_valid opts Hvalid)) as [p Hp].
  rewrite Hp. exists {| _params := p |}. cbn.
  split; [done|]. split; [|repeat split].
  - intros k. rewrite (apply_settings_dom _ _ _ Hp), elem_of_union.
    by rewrite identity_params_dom, settings_given_names.
  - rewrite (build_keeps_identity opts _ p "bucket_name")
      by first [exact Hp | apply elem_of_identity_fields; tauto].
    apply lookup_insert_eq.
  - rewrite (build_keeps_identity opts _ p "document_name")
      by first [exact Hp | apply elem_of_identity_fields; tauto].
    rewrite lookup_insert_ne by done. apply lookup_insert_eq.
  - rewrite (build_keeps_identity opts _ p "view_name")
      by first [exact Hp | apply elem_of_identity_fields; tauto].
    rewrite !lookup_insert_ne by done. apply lookup_insert_eq.
  - eapply (apply_settings_values (fun v => v <> ENone));
      [apply settings_no_none|apply identity_params_no_none|exact Hp].
Qed.


(** C8: whatever is given for [key], [startkey] or [endkey] is held in the
    encoded mapping as the string [json.dumps] makes of that value alone, and
    [keys] as the list, in order, of the strings it makes of each key. *)
Theorem match_keys_json_encoded bucket ddoc view opts q :
  build bucket ddoc view opts = inr q ->
  (forall v, key opts = Some v ->
     as_encodable q !! "key" = Some (EStr (json_dumps v))) /\
  (forall v, startkey opts = Some v ->
     as_encodable q !! "start_key" = Some (EStr (json_dumps v))) /\
  (forall v, endkey opts = Some v ->
     as_encodable q !! "end_key" = Some (EStr (json_dumps v))) /\
  (forall vs, keys opts = Some vs ->
     as_encodable q !! "keys" = Some (EStrList (map json_dumps vs))).
Proof.
  intros Hb. repeat split; intros v Hv;
    apply (build_lookup bucket ddoc view opts q); try done;
    unfold settings; rewrite Hv; cbn;
    repeat (first [ apply list_elem_of_here | apply list_elem_of_further ]).
Qed.

End ViewQueryProperties.

(** ** The model at work on concrete requests *)

Section Runs.

Local Abbreviation next :=
  (__next__ Sample.error_map Sample.internal_code Sample.str
     Sample.deserialize Sample.metadata_failure).
Local Abbreviation drain :=
  (execute Sample.error_map Sample.internal_code Sample.str
     Sample.deserialize Sample.metadata_failure).
Local Abbreviation calls :=
  (run_calls Sample.error_map Sample.internal_code Sample.str
     Sample.deserialize Sample.metadata_failure).

(** views_t.py, test_params_base. *)
Example test_params_base :
  Sample.view_query ViewOptions_empty = inr {| _params := Sample.base_opts |}.
Proof. reflexivity. Qed.

(** views_t.py, test_params_limit. *)
Example test_params_limit :
  Sample.view_query Sample.only_limit =
  inr {| _params := <["limit" := EInt 10]> Sample.base_opts |}.
Proof. reflexivity. Qed.

(** views_t.py, test_params_keys. *)
Example test_params_keys :
  Sample.view_query Sample.only_keys =
  inr {| _params :=
           <["keys" := EStrList (map Sample.json_dumps
                                   [JStr "test-key1"; JStr "test-key2"])]>
             Sample.base_opts |}.
Proof. reflexivity. Qed.

(** views_t.py, test_params_startkey. *)
Example test_params_startkey :
  Sample.view_query Sample.only_startkey =
  inr {| _params :=
           <["start_key" :=
               EStr (Sample.json_dumps
                       (JArr [JStr "101 Coffee Shop"; JStr "landmark_11769"]))]>
             Sample.base_opts |}.
Proof. reflexivity. Qed.

(** views_t.py, test_params_timeout: a [timedelta], an [int], a [float]. *)
Example test_params_timeout :
  (Sample.view_query
     (Sample.only_timeout
        (Duration {| days := 0; seconds := 20; microseconds := 0 |})) =
   inr {| _params := <["timeout" := EInt 20000000]> Sample.base_opts |}) /\
  (Sample.view_query (Sample.only_timeout (IntSeconds 20)) =
   inr {| _params := <["timeout" := EInt 20000000]> Sample.base_opts |}) /\
  (Sample.view_query (Sample.only_timeout (FloatSeconds 51 (-1))) =
   inr {| _params := <["timeout" := EInt 25500000]> Sample.base_opts |}).
Proof. repeat split; vm_compute; reflexivity. Qed.

(** A negative timeout is refused. *)
Example negative_timeout_refused :
  Sample.view_query (Sample.only_timeout (IntSeconds (-1))) =
  inl (InvalidArgumentException "negative timeout").
Proof. reflexivity. Qed.

(** views_t.py, test_view_query: the rows, then the metadata. *)
Example two_rows_drained :
  drain 3 Sample.two_rows =
  Some (inr [ RRow {| row_key := JStr "r0"; row_value := JNull;
                      row_id := None |};
              RRow {| row_key := JStr "r1"; row_value := JNull;
                      row_id := None |} ],
        completed 4 [] (Sample.metadata_of 7) (opened Sample.two_rows)).
Proof. reflexivity. Qed.

(** views_t.py, test_bad_view_query. *)
Example missing_ddoc_raises :
  drain 1 Sample.missing_ddoc =
  Some (inl (CouchbaseExc "DesignDocumentNotFoundException" "fake-ddoc"),
        advanced 1 [] (opened Sample.missing_ddoc)).
Proof. reflexivity. Qed.

(** Draining a second time. *)
Example second_drain_refused :
  drain 3 (completed 4 [] (Sample.metadata_of 7) (opened Sample.two_rows)) =
  Some (inl AlreadyQueriedException,
        completed 4 [] (Sample.metadata_of 7) (opened Sample.two_rows)).
Proof. reflexivity. Qed.

(** Without fuel the loop of [list(self)] has no answer. *)
Example no_fuel_no_answer : drain 2 Sample.two_rows = None.
Proof. reflexivity. Qed.


(** *** The main theorems on concrete requests *)

(** C1 as stated fails: one data row, the end sentinel, and a trailer that
    reports a total of zero rows.  The drain gives the row and stores the
    metadata, whose [total_rows] is below the number of rows. *)
Lemma drain_total_rows_below_rows :
  exists rows st' m,
    drain 3 Sample.short_count = Some (inr rows, st') /\
    length rows = 1 /\
    metadata st' = Some m /\
    ~ (Z.of_nat (length rows) <= total_rows m)%Z.
Proof.
  exists [RValue (Sample.raw_row "r0")],
    (completed 3 [] (Sample.metadata_of 0) (opened Sample.short_count)),
    (Sample.metadata_of 0).
  repeat split. cbn. lia.
Qed.

Lemma drain_rows_then_metadata_witness :
  drain 3 Sample.two_rows =
    Some (inr [ RRow {| row_key := JStr "r0"; row_value := JNull;
                        row_id := None |};
                RRow {| row_key := JStr "r1"; row_value := JNull;
                        row_id := None |} ],
          completed 4 [] (Sample.metadata_of 7) (opened Sample.two_rows)) /\
  metadata (completed 4 [] (Sample.metadata_of 7) (opened Sample.two_rows)) =
    Some (Sample.metadata_of 7).
Proof.
  pose proof
    (drain_rows_then_metadata Sample.error_map Sample.internal_code
       Sample.str Sample.deserialize Sample.metadata_failure Sample.two_rows
       [Encoded "r0"; Encoded "r1"]
       [ RRow {| row_key := JStr "r0"; row_value := JNull; row_id := None |};
         RRow {| row_key := JStr "r1"; row_value := JNull; row_id := None |} ]
       (Sample.metadata_of 7) [] 3
       eq_refl eq_refl eq_refl
       ltac:(repeat constructor) ltac:(cbn; lia)) as H.
  cbn zeta in H. destruct H as (_ & _ & Hdrain & _ & _ & _ & _ & Hmeta & _).
  split; [exact Hdrain|exact Hmeta].
Defined.

(** C2 as stated fails: the marker's exception is raised, but the request
    is still [Streaming], not [Done]. *)
Lemma marker_leaves_request_streaming :
  fst (next Sample.failing) =
    inl (CouchbaseExc "DesignDocumentNotFoundException" "fake-ddoc") /\
  stream_state (snd (next Sample.failing)) = Streaming /\
  stream_state (snd (next Sample.failing)) <> Done.
Proof. repeat split. discriminate. Qed.

Lemma marker_raises_mapped_exception_witness :
  fst (next Sample.failing) =
    inl (CouchbaseExc "DesignDocumentNotFoundException" "fake-ddoc") /\
  pulled (snd (next Sample.failing)) = 1 /\
  metadata (snd (next Sample.failing)) = None /\
  _done_streaming (snd (next Sample.failing)) = false.
Proof.
  destruct
    (marker_raises_mapped_exception Sample.error_map Sample.internal_code
       Sample.str Sample.deserialize Sample.metadata_failure Sample.failing
       502 "fake-ddoc" [] eq_refl eq_refl)
    as (Hraise & _ & Hpull & _ & Hmeta & Hdone & _).
  exact (conj Hraise (conj Hpull (conj Hmeta Hdone))).
Defined.

Lemma first_item_marker_witness :
  drain 1 Sample.missing_ddoc =
    Some (inl (CouchbaseExc "DesignDocumentNotFoundException" "fake-ddoc"),
          advanced 1 [] (opened Sample.missing_ddoc)) /\
  metadata (advanced 1 [] (opened Sample.missing_ddoc)) = None.
Proof.
  destruct
    (first_item_marker Sample.error_map Sample.internal_code Sample.str
       Sample.deserialize Sample.metadata_failure Sample.missing_ddoc
       502 "fake-ddoc" [] 1 eq_refl eq_refl eq_refl eq_refl ltac:(lia))
    as (_ & _ & Hdrain & Hmeta & _).
  split; [exact Hdrain|exact Hmeta].
Defined.

Lemma iter_after_done_already_queried_witness :
  stream_state Sample.finished = Done /\
  __iter__ Sample.finished = (inl AlreadyQueriedException, Sample.finished).
Proof.
  split; [reflexivity|].
  exact (proj1 (iter_after_done_already_queried Sample.error_map
                  Sample.internal_code Sample.str Sample.deserialize
                  Sample.metadata_failure Sample.finished eq_refl)).
Defined.

(** C5 as stated fails: the exception of the source is wrapped and raised,
    but the request is still [Streaming], not [Done]. *)
Lemma source_failure_leaves_request_streaming :
  fst (next Sample.broken) =
    inl (CouchbaseExc "InternalSDKException" "connection reset") /\
  stream_state (snd (next Sample.broken)) = Streaming /\
  stream_state (snd (next Sample.broken)) <> Done.
Proof. repeat split. discriminate. Qed.

Lemma other_exception_wrapped_witness :
  fst (next Sample.garbled) =
    inl (CouchbaseExc "InternalSDKException" "no JSON") /\
  _done_streaming (snd (next Sample.garbled)) = false.
Proof.
  destruct
    (other_exception_wrapped Sample.error_map Sample.internal_code
       Sample.str Sample.deserialize Sample.metadata_failure Sample.garbled
       "ValueError" "no JSON" [] eq_refl
       (or_intror (ex_intro _ (Encoded "") (conj eq_refl eq_refl))))
    as (Hraise & Hdone & _).
  split; [exact Hraise|exact Hdone].
Defined.

Lemma next_after_done_returns_none_witness :
  _done_streaming Sample.finished = true /\
  next Sample.finished = (inr RNone, Sample.finished).
Proof.
  split; [reflexivity|].
  exact (proj1 (next_after_done_returns_none Sample.error_map
                  Sample.internal_code Sample.str Sample.deserialize
                  Sample.metadata_failure Sample.finished eq_refl)).
Defined.

Lemma iter_submits_at_most_once_witness :
  __iter__ (Sample.streaming []) = (inr tt, Sample.streaming []) /\
  submitted
    (calls [CallIter; CallNext; CallIter; CallNext; CallNext; CallIter]
       Sample.two_rows) <= 1.
Proof.
  destruct (iter_submits_at_most_once Sample.error_map Sample.internal_code
              Sample.str Sample.deserialize Sample.metadata_failure)
    as [Hsame Honce].
  split.
  - exact (proj1 (Hsame (Sample.streaming []) eq_refl)).
  - exact (Honce _ Sample.two_rows eq_refl eq_refl).
Defined.

Lemma as_encodable_exact_fields_witness :
  valid_options Sample.only_limit /\
  exists q,
    Sample.view_query Sample.only_limit = inr q /\
    (forall k, k ∈ dom (as_encodable q) <->
       k ∈ identity_fields \/
       exists n, is_set Sample.only_limit n = true /\ k = canonical_name n).
Proof.
  assert (Hvalid : valid_options Sample.only_limit).
  { unfold valid_options. cbn. lia. }
  split; [exact Hvalid|].
  destruct
    (as_encodable_exact_fields Sample.json_dumps Sample.namespace_value
       Sample.on_error_value Sample.order_value Sample.scan_consistency_value
       "default" "test-ddoc" "test-view" Sample.only_limit Hvalid)
    as (q & Hq & Hdom & _).
  exists q. split; [exact Hq|exact Hdom].
Defined.


Lemma match_keys_json_encoded_witness :
  as_encodable {| _params :=
                   <["start_key" :=
                       EStr (Sample.json_dumps
                               (JArr [JStr "101 Coffee Shop";
                                      JStr "landmark_11769"]))]>
                     Sample.base_opts |} !! "start_key" =
  Some (EStr (Sample.json_dumps
                (JArr [JStr "101 Coffee Shop"; JStr "landmark_11769"]))).
Proof.
  destruct
    (match_keys_json_encoded Sample.json_dumps Sample.namespace_value
       Sample.on_error_value Sample.order_value Sample.scan_consistency_value
       "default" "test-ddoc" "test-view" Sample.only_startkey
       {| _params :=
            <["start_key" :=
                EStr (Sample.json_dumps
                        (JArr [JStr "101 Coffee Shop";
                               JStr "landmark_11769"]))]>
              Sample.base_opts |}
       eq_refl)
    as (_ & Hstart & _).
  exact (Hstart _ eq_refl).
Defined.

(** *** The further theorems on concrete requests *)

Lemma done_request_frozen_witness :
  _done_streaming Sample.finished = true /\
  calls [CallNext; CallIter; CallNext] Sample.finished = Sample.finished.
Proof.
  split; [reflexivity|].
  exact (done_request_frozen Sample.error_map Sample.internal_code
           Sample.str Sample.deserialize Sample.metadata_failure
           [CallNext; CallIter; CallNext] Sample.finished eq_refl).
Defined.

Lemma next_after_done_never_ends_witness :
  next_n Sample.error_map Sample.internal_code Sample.str Sample.deserialize
    Sample.metadata_failure 3 Sample.finished =
    (inr [RNone; RNone; RNone], Sample.finished) /\
  collect Sample.error_map Sample.internal_code Sample.str Sample.deserialize
    Sample.metadata_failure 100 Sample.finished = None.
Proof.
  destruct (next_after_done_never_ends Sample.error_map Sample.internal_code
              Sample.str Sample.deserialize Sample.metadata_failure
              Sample.finished eq_refl) as [Hn Hc].
  split; [exact (Hn 3)|exact (Hc 100)].
Defined.

Lemma metadata_fetch_failure_witness :
  next (Sample.streaming [Yield PyNone]) =
  (inl (CouchbaseExc "InternalSDKException" ""),
   set_done_streaming true (advanced 2 [] (Sample.streaming [Yield PyNone]))).
Proof.
  exact (proj1 (metadata_fetch_failure Sample.error_map Sample.internal_code
                  Sample.str Sample.deserialize Sample.metadata_failure
                  (Sample.streaming [Yield PyNone]) eq_refl) eq_refl).
Defined.

Lemma execute_missing_trailer_raises_witness :
  drain 3 Sample.no_trailer =
  Some (inl (CouchbaseExc "InternalSDKException" ""),
        set_done_streaming true (advanced 4 [] (opened Sample.no_trailer))).
Proof.
  exact (proj1 (execute_missing_trailer_raises Sample.error_map
                  Sample.internal_code Sample.str Sample.deserialize
                  Sample.metadata_failure Sample.no_trailer
                  [Encoded "r0"; Encoded "r1"]
                  [RValue (Sample.raw_row "r0"); RValue (Sample.raw_row "r1")] 3
                  eq_refl eq_refl eq_refl
                  ltac:(repeat constructor) ltac:(cbn; lia))).
Defined.

Lemma exhausted_source_is_internal_error_witness :
  drain 1 Sample.silent =
  Some (inl (CouchbaseExc "InternalSDKException" ""),
        set_done_streaming true (advanced 2 [] (opened Sample.silent))).
Proof.
  exact (proj2 (exhausted_source_is_internal_error Sample.error_map
                  Sample.internal_code Sample.str Sample.deserialize
                  Sample.metadata_failure)
           Sample.silent 1 eq_refl eq_refl eq_refl ltac:(lia)).
Defined.

Lemma couchbase_exception_unchanged_witness :
  next Sample.timed_out =
  (inl (CouchbaseExc "UnAmbiguousTimeoutException" "timeout"),
   advanced 1 [] Sample.timed_out).
Proof.
  exact (couchbase_exception_unchanged Sample.error_map Sample.internal_code
           Sample.str Sample.deserialize Sample.metadata_failure
           Sample.timed_out "UnAmbiguousTimeoutException" "timeout" []
           eq_refl (or_introl eq_refl)).
Defined.

Lemma execute_returns_only_when_complete_witness :
  stream_state (completed 4 [] (Sample.metadata_of 7) (opened Sample.two_rows))
    = Done /\
  is_Some (metadata (completed 4 [] (Sample.metadata_of 7)
                       (opened Sample.two_rows))).
Proof.
  exact (execute_returns_only_when_complete Sample.error_map
           Sample.internal_code Sample.str Sample.deserialize
           Sample.metadata_failure 3 Sample.two_rows _ _ eq_refl).
Defined.

Lemma drain_terminates_witness : is_Some (drain 5 Sample.two_rows).
Proof.
  exact (drain_terminates Sample.error_map Sample.internal_code Sample.str
           Sample.deserialize Sample.metadata_failure Sample.two_rows 5
           ltac:(cbn; lia)).
Defined.

Lemma metadata_only_when_done_witness :
  stream_state
    (calls [CallIter; CallNext; CallNext; CallNext] Sample.two_rows) = Done.
Proof.
  exact (metadata_only_when_done Sample.error_map Sample.internal_code
           Sample.str Sample.deserialize Sample.metadata_failure
           [CallIter; CallNext; CallNext; CallNext] Sample.two_rows
           eq_refl (ex_intro _ (Sample.metadata_of 7) eq_refl)).
Defined.

Lemma execute_on_streaming_returns_rest_witness :
  drain 2 Sample.one_row_left =
  Some (inr [ RRow {| row_key := JStr "r1"; row_value := JNull;
                      row_id := None |} ],
        completed 3 [] (Sample.metadata_of 7) Sample.one_row_left).
Proof.
  exact (proj1 (execute_on_streaming_returns_rest Sample.error_map
                  Sample.internal_code Sample.str Sample.deserialize
                  Sample.metadata_failure Sample.one_row_left
                  [Encoded "r1"]
                  [ RRow {| row_key := JStr "r1"; row_value := JNull;
                            row_id := None |} ]
                  (Sample.metadata_of 7) [] 2
                  eq_refl eq_refl
                  ltac:(repeat constructor) ltac:(cbn; lia))).
Defined.

Lemma returned_row_is_head_of_source_witness :
  exists o rest,
    _streaming_result Sample.one_row_left = Yield (Obj o) :: rest /\
    produce Sample.deserialize (row_factory Sample.one_row_left) o =
      inr (RRow {| row_key := JStr "r1"; row_value := JNull;
                   row_id := None |}) /\
    advanced 1 [Yield PyNone; Yield (Obj (Response (Sample.metadata_of 7)))]
      Sample.one_row_left = advanced 1 rest Sample.one_row_left /\
    pulled
      (advanced 1
         [Yield PyNone; Yield (Obj (Response (Sample.metadata_of 7)))]
         Sample.one_row_left) = S (pulled Sample.one_row_left).
Proof.
  exact (returned_row_is_head_of_source Sample.error_map Sample.internal_code
           Sample.str Sample.deserialize Sample.metadata_failure
           Sample.one_row_left _ _ eq_refl eq_refl).
Defined.

End Runs.
